(** * SwitchGain: momentum and mean-reversion indicators

    A shallow embedding of the computational cells of
    [algo_trading_strategies.ipynb]: the indicator columns
    ([Momentum_1D], [Momentum_5D], [RSI], [SMA], [STD], [Upper], [Lower],
    [Z-Score]), the momentum [Signal] column and the two marker masks of
    the mean-reversion chart.

    The notebook is vectorised: every statement builds a whole column of
    the data frame from other columns by calls to pandas, numpy and the
    [ta] package.  A column is modelled as a list of float values, and
    each library call as the list function it computes, with the
    library's own defaults (they are recalled where each is defined).

    Numbers.  A column cell is a double.  Rounding is left out: a finite
    cell holds a real number and arithmetic on finite cells is exact.  The
    special values are kept, since the notebook's treatment of missing
    history and of division by zero rests on them: [NaN] is pandas'
    missing value, and dividing by zero gives an infinity or [NaN].
    A theorem about a finite cell is therefore about its real-number
    value: the program's double agrees with it up to rounding (pandas
    also updates the window mean and deviation from one row to the next
    instead of recomputing them), and a comparison that is an exact tie
    in real numbers can fall either way in the program.  Where a
    statement turns on that, module [Double] has the notebook's
    element-wise statements on binary64 cells with their rounded
    operations.

    Time.  The series is sorted by timestamp, so a timestamp is a
    position in the list of closes and appending later price points is
    list concatenation. *)

From Stdlib Require Import Floats.
From Stdlib Require Import String.
From Stdlib Require Import Reals Lra Lia List Bool Arith ZArith Sorted.
Import ListNotations.

Open Scope R_scope.

(** ** Float values *)

Inductive fval : Type :=
| Fin (x : R)
| PInf
| NInf
| NaN.

Definition Rltb (x y : R) : bool := if Rlt_dec x y then true else false.
Definition Reqb (x y : R) : bool := if Req_dec_T x y then true else false.

(** Unary minus. *)
Definition fneg (a : fval) : fval :=
  match a with
  | Fin x => Fin (- x)
  | PInf => NInf
  | NInf => PInf
  | NaN => NaN
  end.

Definition fadd (a b : fval) : fval :=
  match a, b with
  | NaN, _ | _, NaN => NaN
  | Fin x, Fin y => Fin (x + y)
  | PInf, NInf | NInf, PInf => NaN
  | PInf, _ | _, PInf => PInf
  | NInf, _ | _, NInf => NInf
  end.

Definition fsub (a b : fval) : fval := fadd a (fneg b).

(** The infinity of the sign of [x], [NaN] at zero: what a product of
    [x] with +inf is. *)
Definition inf_of_sign (x : R) : fval :=
  if Rltb 0 x then PInf else if Rltb x 0 then NInf else NaN.

Definition fmul (a b : fval) : fval :=
  match a, b with
  | NaN, _ | _, NaN => NaN
  | Fin x, Fin y => Fin (x * y)
  | Fin x, PInf | PInf, Fin x => inf_of_sign x
  | Fin x, NInf | NInf, Fin x => fneg (inf_of_sign x)
  | PInf, PInf | NInf, NInf => PInf
  | PInf, NInf | NInf, PInf => NInf
  end.

(** Division.  A finite value over zero is an infinity of the sign of
    the numerator, and [0/0] is [NaN].  The model has one zero: every
    zero divisor that reaches an unguarded division in the notebook is the
    result of a square root or a price, so it is [+0.0].  On finite
    cells the quotient, like the sum, the product and the square root, is
    the real number; numpy rounds it to the nearest double. *)
Definition fdiv (a b : fval) : fval :=
  match a, b with
  | NaN, _ | _, NaN => NaN
  | Fin x, Fin y => if Reqb y 0 then inf_of_sign x else Fin (x / y)
  | Fin _, PInf | Fin _, NInf => Fin 0
  | PInf, Fin y => if Rltb y 0 then NInf else PInf
  | NInf, Fin y => if Rltb y 0 then PInf else NInf
  | PInf, PInf | PInf, NInf | NInf, PInf | NInf, NInf => NaN
  end.

Definition fsqrt (a : fval) : fval :=
  match a with
  | Fin x => if Rltb x 0 then NaN else Fin (sqrt x)
  | PInf => PInf
  | NInf | NaN => NaN
  end.

(** Comparisons: every comparison with [NaN] is false. *)
Definition flt (a b : fval) : bool :=
  match a, b with
  | NaN, _ | _, NaN => false
  | Fin x, Fin y => Rltb x y
  | NInf, Fin _ | NInf, PInf | Fin _, PInf => true
  | _, _ => false
  end.

Definition fgt (a b : fval) : bool := flt b a.

Definition feqb (a b : fval) : bool :=
  match a, b with
  | Fin x, Fin y => Reqb x y
  | PInf, PInf | NInf, NInf => true
  | _, _ => false
  end.

(** The number of a Python [int] literal or variable used as a float. *)
Definition of_nat (n : nat) : fval := Fin (IZR (Z.of_nat n)).

(** ** Columns (pandas [Series], numpy arrays) *)

Definition Series : Type := list fval.

(** The cell of a column at position [t]; a position past the end reads
    as missing. *)
Definition at_ (s : Series) (t : nat) : fval := nth t s NaN.

(** Element-wise binary operation on two columns of the same index. *)
Fixpoint map2 {A B C : Type} (f : A -> B -> C) (l : list A) (m : list B)
  : list C :=
  match l, m with
  | x :: l', y :: m' => f x y :: map2 f l' m'
  | _, _ => []
  end.

(** [s.shift(n)]: the column moved [n] places down, the first [n] cells
    missing, the length kept. *)
Definition shift (n : nat) (s : Series) : Series :=
  firstn (length s) (repeat NaN n ++ s).

(** [s.diff(n)]: [s - s.shift(n)]. *)
Definition diff (n : nat) (s : Series) : Series :=
  map2 fsub s (shift n s).

(** [s.pct_change(periods=n)]: [s / s.shift(n) - 1].  (pandas first
    forward-fills missing cells of [s]; the [Close] column has none.) *)
Definition pct_change (periods : nat) (s : Series) : Series :=
  map (fun q => fsub q (Fin 1)) (map2 fdiv s (shift periods s)).

(** The trailing window of [w] cells that ends at position [i]. *)
Definition window_at {A : Type} (w : nat) (s : list A) (i : nat) : list A :=
  firstn w (skipn (i + 1 - w) s).

(** [s.rolling(window=w).agg()]: [min_periods] defaults to the window
    size, so the first [w - 1] results are missing. *)
Definition rolling (w : nat) (agg : list fval -> fval) (s : Series) : Series :=
  map (fun i => if (i + 1 <? w)%nat then NaN else agg (window_at w s i))
      (seq 0 (length s)).

Definition fsum (l : list fval) : fval := fold_right fadd (Fin 0) l.

Definition mean (win : list fval) : fval :=
  fdiv (fsum win) (of_nat (length win)).

(** Variance with [ddof] delta degrees of freedom: the sum of squared
    deviations from the window mean over [nobs - ddof]. *)
Definition var (ddof : nat) (win : list fval) : fval :=
  let m := mean win in
  fdiv (fsum (map (fun x => fmul (fsub x m) (fsub x m)) win))
       (of_nat (length win - ddof)).

(** [.std()] of a rolling window: [ddof] defaults to 1 in pandas.  This
    is the value the window defines; pandas reaches it in doubles by
    updating the mean and the sum of squared deviations as the window
    slides, so its cell can differ from this one in the last places. *)
Definition std (win : list fval) : fval := fsqrt (var 1 win).

(** [s.ewm(alpha=a, min_periods=m, adjust=False).mean()]: the recursion
    [y_0 = x_0], [y_t = (1 - a) * y_(t-1) + a * x_t], shown from the
    [m]-th observation on.  (The columns it is applied to hold no
    missing cell, so every cell is an observation.) *)
Fixpoint ewm_from (alpha : fval) (prev : fval) (xs : Series) : Series :=
  match xs with
  | [] => []
  | x :: r =>
      let y := fadd (fmul (fsub (Fin 1) alpha) prev) (fmul alpha x) in
      y :: ewm_from alpha y r
  end.

Definition ewm_raw (alpha : fval) (s : Series) : Series :=
  match s with
  | [] => []
  | x0 :: r => x0 :: ewm_from alpha x0 r
  end.

Definition ewm_mean (alpha : fval) (min_periods : nat) (s : Series) : Series :=
  map2 (fun i y => if (i + 1 <? min_periods)%nat then NaN else y)
       (seq 0 (length s)) (ewm_raw alpha s).

(** [s.where(cond, other)]: keep the cell where [cond] holds, else
    [other]. *)
Definition where_ (s : Series) (cond : list bool) (other : fval) : Series :=
  map2 (fun x (c : bool) => if c then x else other) s cond.

(** [np.where(cond, x, y)] on arrays of one length (a scalar argument is
    broadcast with [repeat]). *)
Fixpoint np_where {A : Type} (cond : list bool) (x y : list A) : list A :=
  match cond, x, y with
  | c :: cond', a :: x', b :: y' =>
      (if c then a else b) :: np_where cond' x' y'
  | _, _, _ => []
  end.

Definition broadcast {A B : Type} (like : list B) (a : A) : list A :=
  repeat a (length like).

(** Comparison of a column with a scalar, and [&] on masks. *)
Definition gt_scalar (s : Series) (c : fval) : list bool :=
  map (fun x => fgt x c) s.
Definition lt_scalar (s : Series) (c : fval) : list bool :=
  map (fun x => flt x c) s.
Definition eq_scalar (s : Series) (c : fval) : list bool :=
  map (fun x => feqb x c) s.
Definition mask_and (a b : list bool) : list bool := map2 andb a b.

(** [data.loc[mask].index]: the positions at which the mask holds. *)
Definition loc_index (mask : list bool) : list nat :=
  map fst (filter snd (combine (seq 0 (length mask)) mask)).

(** ** [ta.momentum.RSIIndicator(close, window).rsi()]

    The indicator of the [ta] package, with [fillna=False] (its default,
    under which [rsi()] returns the column of [_run] unchanged and
    [min_periods] is the window):
<<
    diff = self._close.diff(1)
    up_direction = diff.where(diff > 0, 0.0)
    down_direction = -diff.where(diff < 0, 0.0)
    emaup = up_direction.ewm(alpha=1/window, min_periods=window, adjust=False).mean()
    emadn = down_direction.ewm(alpha=1/window, min_periods=window, adjust=False).mean()
    relative_strength = emaup / emadn
    rsi = np.where(emadn == 0, 100, 100 - (100 / (1 + relative_strength)))
>> *)
Module RSIIndicator.

Definition up_direction (close : Series) : Series :=
  let d := diff 1 close in where_ d (gt_scalar d (Fin 0)) (Fin 0).

Definition down_direction (close : Series) : Series :=
  let d := diff 1 close in map fneg (where_ d (lt_scalar d (Fin 0)) (Fin 0)).

Definition alpha (window : nat) : fval := fdiv (Fin 1) (of_nat window).

Definition emaup (close : Series) (window : nat) : Series :=
  ewm_mean (alpha window) window (up_direction close).

Definition emadn (close : Series) (window : nat) : Series :=
  ewm_mean (alpha window) window (down_direction close).

Definition relative_strength (close : Series) (window : nat) : Series :=
  map2 fdiv (emaup close window) (emadn close window).

Definition rsi (close : Series) (window : nat) : Series :=
  np_where (eq_scalar (emadn close window) (Fin 0))
           (broadcast close (Fin 100))
           (map (fun rs => fsub (Fin 100) (fdiv (Fin 100) (fadd (Fin 1) rs)))
                (relative_strength close window)).

End RSIIndicator.

(** ** The notebook

    [data] is the list of closing prices the ingestion cell leaves in
    [data['Close']]: finite numbers, oldest first. *)

Definition Close (data : list R) : Series := map Fin data.

(** *** Momentum strategy *)

Definition Momentum_1D (data : list R) : Series := pct_change 1 (Close data).
Definition Momentum_5D (data : list R) : Series := pct_change 5 (Close data).
Definition RSI (data : list R) : Series := RSIIndicator.rsi (Close data) 14.

(** The nested [np.where] of the [Signal] cell, on any two columns. *)
Definition momentum_signal (m5 rsi : Series) : list Z :=
  np_where
    (mask_and (mask_and (gt_scalar m5 (Fin 0)) (gt_scalar rsi (Fin 30)))
              (lt_scalar rsi (Fin 70)))
    (broadcast m5 1%Z)
    (np_where
       (mask_and (lt_scalar m5 (Fin 0)) (gt_scalar rsi (Fin 70)))
       (broadcast m5 (-1)%Z)
       (broadcast m5 0%Z)).

Definition Signal (data : list R) : list Z :=
  momentum_signal (Momentum_5D data) (RSI data).

(** *** Mean-reversion strategy *)

Definition window : nat := 20.

Definition SMA (data : list R) : Series := rolling window mean (Close data).
Definition STD (data : list R) : Series := rolling window std (Close data).

Definition Upper (data : list R) : Series :=
  map2 fadd (SMA data) (map (fun s => fmul s (Fin 1.5)) (STD data)).
Definition Lower (data : list R) : Series :=
  map2 fsub (SMA data) (map (fun s => fmul s (Fin 1.5)) (STD data)).

Definition ZScore (data : list R) : Series :=
  map2 fdiv (map2 fsub (Close data) (SMA data)) (STD data).

(** The masks of the two marker traces of the mean-reversion chart, on
    any Z-score column, and the positions they select. *)
Definition buy_mask (zscore : Series) : list bool :=
  lt_scalar zscore (Fin (-1.5)).
Definition sell_mask (zscore : Series) : list bool :=
  gt_scalar zscore (Fin 1.5).

Definition buy_markers (data : list R) : list nat :=
  loc_index (buy_mask (ZScore data)).
Definition sell_markers (data : list R) : list nat :=
  loc_index (sell_mask (ZScore data)).

(** The three signals, and the readings of the two engines' outputs. *)
Inductive signal : Type := Buy | Sell | Neutral.

(** The momentum engine's cell: 1, -1 or 0. *)
Definition signal_of_int (z : Z) : signal :=
  if (z =? 1)%Z then Buy else if (z =? -1)%Z then Sell else Neutral.

(** The mean-reversion engine has no signal column: a timestamp is a Buy
    when the Buy trace marks it, a Sell when the Sell trace does, and
    Neutral when neither does. *)
Definition marked (markers : list nat) (t : nat) : bool :=
  existsb (Nat.eqb t) markers.

Definition reversion_signal (data : list R) (t : nat) : signal :=
  if marked (buy_markers data) t then Buy
  else if marked (sell_markers data) t then Sell
  else Neutral.

(** *** The marker traces of the two charts

    [data[mask][col]] and [data.loc[mask][col]]: the cells of a column in
    the rows where the mask holds, in row order.  The index of the frame
    is the list of positions, so [loc_index mask] is this selection from
    the index. *)
Definition loc {A : Type} (col : list A) (mask : list bool) : list A :=
  map fst (filter snd (combine col mask)).

(** [data['Signal'] == v]. *)
Definition eq_int (s : list Z) (v : Z) : list bool :=
  map (fun z => (z =? v)%Z) s.

(** The Buy and Sell traces of the momentum chart: [x] is the index and
    [y] the [Close] column of [data[data['Signal'] == 1]] and of
    [data[data['Signal'] == -1]]. *)
Definition momentum_buy_x (data : list R) : list nat :=
  loc_index (eq_int (Signal data) 1).
Definition momentum_buy_y (data : list R) : Series :=
  loc (Close data) (eq_int (Signal data) 1).
Definition momentum_sell_x (data : list R) : list nat :=
  loc_index (eq_int (Signal data) (-1)).
Definition momentum_sell_y (data : list R) : Series :=
  loc (Close data) (eq_int (Signal data) (-1)).

(** The [y] of the two marker traces of the mean-reversion chart (their
    [x] are [buy_markers] and [sell_markers]). *)
Definition reversion_buy_y (data : list R) : Series :=
  loc (Close data) (buy_mask (ZScore data)).
Definition reversion_sell_y (data : list R) : Series :=
  loc (Close data) (sell_mask (ZScore data)).

(** *** The mean-reversion cells on doubles

    The element-wise statements of the mean-reversion cells as numpy
    evaluates them on one row: binary64 cells, each operation correctly
    rounded.  The cells [sma] and [std] are whatever [rolling] left in
    the row. *)
Module Double.

(** [data['SMA'] + (data['STD'] * 1.5)] and [data['SMA'] - (data['STD'] * 1.5)]. *)
Definition Upper (sma std : float) : float :=
  PrimFloat.add sma (PrimFloat.mul std 1.5%float).
Definition Lower (sma std : float) : float :=
  PrimFloat.sub sma (PrimFloat.mul std 1.5%float).

(** [(data['Close'] - data['SMA']) / data['STD']]. *)
Definition ZScore (close sma std : float) : float :=
  PrimFloat.div (PrimFloat.sub close sma) std.

(** [data['Z-Score'] < -1.5] and [data['Z-Score'] > 1.5]. *)
Definition buy_mask (zscore : float) : bool :=
  PrimFloat.ltb zscore (-1.5)%float.
Definition sell_mask (zscore : float) : bool :=
  PrimFloat.ltb 1.5%float zscore.

End Double.

(** *** The data collection cell

    An exception is its class name and its message ([str(e)]), with a
    flag that tells whether the class derives from [Exception]: the
    handler of the cell is [except Exception], which does not catch a
    [KeyboardInterrupt] or a [SystemExit].  The variable [data] of the
    notebook is unbound or holds a frame, and the cell can raise after
    it has bound it. *)
Inductive exception : Type :=
| Raise (derives_Exception : bool) (class message : string).

Definition is_Exception (e : exception) : bool :=
  match e with Raise b _ _ => b end.

Definition str (e : exception) : string :=
  match e with Raise _ _ m => m end.

Section Fetch.

(** The rows of the provider's frame, the ticker object, the two calls to
    the provider (each returns or raises) and the text [print] shows for
    a frame. *)
Variables (Row Ticker : Type).
Variable yf_Ticker : string -> exception + Ticker.
Variable history : Ticker -> string -> string -> exception + list Row.
Variable show : list Row -> string.

(** [data.empty] and [data.head()]. *)
Definition empty (data : list Row) : bool :=
  match data with [] => true | _ :: _ => false end.
Definition head (data : list Row) : list Row := firstn 5 data.

(** What a run of the cell leaves: the lines its own [print] calls
    wrote, the exception it raised if any, and the binding of [data]. *)
Record outcome : Type := Outcome {
  printed : list string;
  raised : option exception;
  data_after : option (list Row)
}.

(** An exception raised in the [try] body, with [data] as it is then:
    [except Exception as e] prints and re-raises an [Exception]; any
    other exception is not caught and propagates unprinted. *)
Definition handler (e : exception) (data : option (list Row)) : outcome :=
  Outcome
    (if is_Exception e
     then [String.append "Error fetching data: " (str e)]
     else [])
    (Some e) data.

(** The cell, run with [data] bound or not as the argument says. *)
Definition fetch_cell (data : option (list Row)) : outcome :=
  match yf_Ticker "AAPL" with
  | inl e => handler e data
  | inr stock =>
      match history stock "1y" "1d" with
      | inl e => handler e data
      | inr frame =>
          (* [data] is bound to the frame before it is tested *)
          if empty frame
          then handler
                 (Raise true "ValueError" "No data returned from Yahoo Finance")
                 (Some frame)
          else Outcome [show (head frame)] None (Some frame)
      end
  end.

End Fetch.

(** ** Notions used in the statements *)

(** [a] is strictly below [b], as the notebook's comparisons decide it. *)
Definition fLt (a b : fval) : Prop := flt a b = true.

(** A column function commutes with taking a prefix of its input: the
    cell at a timestamp is computed from the points up to it. *)
Definition prefix_stable {A B} (f : list A -> list B) : Prop :=
  forall k s, firstn k (f s) = f (firstn k s).

(** *** Window statistics on finite prices *)

Definition Rsum (l : list R) : R := fold_right Rplus 0 l.

(** The mean of a list of reals. *)
Definition Rmean (l : list R) : R := Rsum l / IZR (Z.of_nat (length l)).

(** The sum of squared deviations from the mean. *)
Definition sum_sq_dev (l : list R) : R :=
  Rsum (map (fun x => (x - Rmean l) * (x - Rmean l)) l).

(** *** Gains, losses and their smoothed averages *)

(** The gain and the loss of one period, on finite prices; the first
    timestamp has no predecessor and counts as no gain and no loss. *)
Definition gain (data : list R) (t : nat) : R :=
  match t with
  | O => 0
  | S p => Rmax (nth t data 0 - nth p data 0) 0
  end.

Definition loss (data : list R) (t : nat) : R :=
  match t with
  | O => 0
  | S p => Rmax (nth p data 0 - nth t data 0) 0
  end.

(** Wilder's smoothing of a sequence [x] with factor [a]: the average
    starts at [x 0] and each period keeps [1 - a] of the previous average
    and takes [a] of the new value. *)
Fixpoint wilder (a : R) (x : nat -> R) (t : nat) : R :=
  match t with
  | O => x O
  | S p => (1 - a) * wilder a x p + a * x t
  end.

Definition avg_gain (data : list R) (t : nat) : R := wilder (1 / 14) (gain data) t.
Definition avg_loss (data : list R) (t : nat) : R := wilder (1 / 14) (loss data) t.

(** The smoothing started from a previous average [y]. *)
Fixpoint wilder_from (a y : R) (x : nat -> R) (t : nat) : R :=
  match t with
  | O => (1 - a) * y + a * x O
  | S p => (1 - a) * wilder_from a y x p + a * x t
  end.

(** * Properties *)

(** ** Real comparisons *)

Lemma Rltb_iff (x y : R) : Rltb x y = true <-> x < y.
Proof. unfold Rltb. destruct (Rlt_dec x y); split; intros; auto; discriminate. Qed.

Lemma Rltb_false_iff (x y : R) : Rltb x y = false <-> y <= x.
Proof.
  unfold Rltb. destruct (Rlt_dec x y); split; intros; auto; try discriminate; lra.
Qed.

Lemma Reqb_iff (x y : R) : Reqb x y = true <-> x = y.
Proof. unfold Reqb. destruct (Req_dec_T x y); split; intros; auto; discriminate. Qed.

Lemma Reqb_false_iff (x y : R) : Reqb x y = false <-> x <> y.
Proof.
  unfold Reqb. destruct (Req_dec_T x y); split; intros; auto; try discriminate.
  contradiction.
Qed.

Lemma Reqb_refl (x : R) : Reqb x x = true.
Proof. now apply Reqb_iff. Qed.

(** Decide the real comparisons that occur in the goal by linear
    arithmetic. *)
Ltac rcmp :=
  repeat match goal with
  | |- context [Rltb ?x ?y] =>
      first [ rewrite (proj2 (Rltb_iff x y)) by lra
            | rewrite (proj2 (Rltb_false_iff x y)) by lra ]
  | |- context [Reqb ?x ?y] =>
      first [ rewrite (proj2 (Reqb_iff x y)) by lra
            | rewrite (proj2 (Reqb_false_iff x y)) by lra ]
  end.

Lemma flt_Fin (x y : R) : flt (Fin x) (Fin y) = true <-> x < y.
Proof. apply Rltb_iff. Qed.

Lemma flt_NaN_l (b : fval) : flt NaN b = false.
Proof. reflexivity. Qed.

Lemma flt_NaN_r (a : fval) : flt a NaN = false.
Proof. now destruct a. Qed.

(** No value is both below and above another. *)
Lemma flt_asym (a b : fval) : flt a b = true -> flt b a = true -> False.
Proof.
  destruct a, b; simpl; try discriminate.
  rewrite !Rltb_iff. lra.
Qed.

Lemma flt_trans (a b c : fval) :
  flt a b = true -> flt b c = true -> flt a c = true.
Proof.
  destruct a, b, c; simpl; try discriminate; auto.
  rewrite !Rltb_iff. lra.
Qed.

(** ** Lists: lengths and cells *)

Lemma map2_length {A B C} (f : A -> B -> C) l m :
  length (map2 f l m) = Nat.min (length l) (length m).
Proof.
  revert m. induction l as [|x l IH]; intros [|y m]; simpl; auto.
Qed.

Lemma nth_map2 {A B C} (f : A -> B -> C) l m t dl dm d :
  (t < length l)%nat -> (t < length m)%nat ->
  nth t (map2 f l m) d = f (nth t l dl) (nth t m dm).
Proof.
  revert m t. induction l as [|x l IH]; intros [|y m] [|t]; simpl; intros;
    try lia; auto.
  apply IH; lia.
Qed.

Lemma firstn_map2 {A B C} (f : A -> B -> C) n l m :
  firstn n (map2 f l m) = map2 f (firstn n l) (firstn n m).
Proof.
  revert l m. induction n as [|n IH]; intros [|x l] [|y m]; simpl; auto.
  now rewrite IH.
Qed.

Lemma np_where_length {A} c (x y : list A) :
  length c = length x -> length c = length y ->
  length (np_where c x y) = length c.
Proof.
  revert x y. induction c as [|b c IH]; intros [|a x] [|a' y]; simpl;
    intros; try lia.
  rewrite IH; lia.
Qed.

Lemma nth_np_where {A} c (x y : list A) t d :
  (t < length c)%nat -> length c = length x -> length c = length y ->
  nth t (np_where c x y) d = if nth t c false then nth t x d else nth t y d.
Proof.
  revert x y t. induction c as [|b c IH]; intros [|a x] [|a' y] [|t]; simpl;
    intros; try lia; auto.
  apply IH; lia.
Qed.

Lemma firstn_np_where {A} n c (x y : list A) :
  firstn n (np_where c x y) = np_where (firstn n c) (firstn n x) (firstn n y).
Proof.
  revert c x y.
  induction n as [|n IH]; intros [|b c] [|a x] [|a' y]; simpl; auto.
  now rewrite IH.
Qed.

Lemma shift_length n s : length (shift n s) = length s.
Proof.
  unfold shift. rewrite length_firstn, length_app. lia.
Qed.

Lemma nth_shift n s t :
  (t < length s)%nat ->
  nth t (shift n s) NaN = if (t <? n)%nat then NaN else nth (t - n) s NaN.
Proof.
  intros Ht. unfold shift. rewrite nth_firstn.
  replace (t <? length s)%nat with true by (symmetry; apply Nat.ltb_lt; lia).
  destruct (t <? n)%nat eqn:E.
  - apply Nat.ltb_lt in E. rewrite app_nth1 by (rewrite repeat_length; lia).
    apply nth_repeat.
  - apply Nat.ltb_ge in E. rewrite app_nth2 by (rewrite repeat_length; lia).
    now rewrite repeat_length.
Qed.

Lemma firstn_shift k n s : firstn k (shift n s) = shift n (firstn k s).
Proof.
  unfold shift. rewrite firstn_firstn, length_firstn.
  rewrite !firstn_app, firstn_firstn. f_equal. f_equal. lia.
Qed.

Lemma nth_map_seq {B} (g : nat -> B) n t d :
  (t < n)%nat -> nth t (map g (seq 0 n)) d = g t.
Proof.
  intros Ht. rewrite nth_indep with (d' := g 0%nat)
    by now rewrite length_map, length_seq.
  rewrite (map_nth g), seq_nth by lia. reflexivity.
Qed.

Lemma rolling_length w agg s : length (rolling w agg s) = length s.
Proof. unfold rolling. now rewrite length_map, length_seq. Qed.

Lemma nth_rolling w agg s t :
  (t < length s)%nat ->
  nth t (rolling w agg s) NaN =
  if (t + 1 <? w)%nat then NaN else agg (window_at w s t).
Proof.
  intros Ht. unfold rolling. now rewrite nth_map_seq.
Qed.

(** A window that ends inside a prefix is a window of the prefix. *)
Lemma window_at_firstn {A} w k (s : list A) i :
  (i < k)%nat -> (w <= i + 1)%nat ->
  window_at w (firstn k s) i = window_at w s i.
Proof.
  intros Hi Hw. unfold window_at.
  destruct (Nat.le_gt_cases k (length s)) as [Hk|Hk].
  - rewrite <- (firstn_skipn k s) at 2.
    rewrite skipn_app, firstn_app.
    rewrite length_firstn, Nat.min_l by lia.
    replace (i + 1 - w - k)%nat with 0%nat by lia. simpl skipn at 2.
    rewrite length_skipn, length_firstn, Nat.min_l by lia.
    replace (w - (k - (i + 1 - w)))%nat with 0%nat by lia.
    simpl. now rewrite app_nil_r.
  - now rewrite (@firstn_all2 A k s) by lia.
Qed.

Lemma broadcast_length {A B} (like : list B) (a : A) :
  length (broadcast like a) = length like.
Proof. apply repeat_length. Qed.

Lemma firstn_broadcast {A B} k (like : list B) (a : A) :
  firstn k (broadcast like a) = broadcast (firstn k like) a.
Proof.
  unfold broadcast. rewrite length_firstn.
  generalize (length like) as n. revert k.
  induction k as [|k IH]; intros [|n]; simpl; auto. now rewrite IH.
Qed.

Lemma firstn_seq k a n : firstn k (seq a n) = seq a (Nat.min k n).
Proof.
  revert a n. induction k as [|k IH]; intros a [|n]; simpl; auto.
  now rewrite IH.
Qed.

Lemma firstn_rolling k w agg s :
  firstn k (rolling w agg s) = rolling w agg (firstn k s).
Proof.
  unfold rolling. rewrite firstn_map, firstn_seq, length_firstn.
  apply map_ext_in. intros i Hi. apply in_seq in Hi.
  destruct (i + 1 <? w)%nat eqn:E; auto.
  apply Nat.ltb_ge in E. now rewrite window_at_firstn by lia.
Qed.

Lemma ewm_from_length a p xs : length (ewm_from a p xs) = length xs.
Proof. revert p. induction xs as [|x xs IH]; intros p; simpl; auto. Qed.

Lemma ewm_raw_length a s : length (ewm_raw a s) = length s.
Proof. destruct s; simpl; auto. now rewrite ewm_from_length. Qed.

Lemma ewm_mean_length a m s : length (ewm_mean a m s) = length s.
Proof.
  unfold ewm_mean. rewrite map2_length, length_seq, ewm_raw_length. lia.
Qed.

Lemma firstn_ewm_from k a p xs :
  firstn k (ewm_from a p xs) = ewm_from a p (firstn k xs).
Proof.
  revert k p. induction xs as [|x xs IH]; intros [|k] p; simpl; auto.
  now rewrite IH.
Qed.

Lemma firstn_ewm_raw k a s : firstn k (ewm_raw a s) = ewm_raw a (firstn k s).
Proof.
  destruct s as [|x s], k as [|k]; simpl; auto. now rewrite firstn_ewm_from.
Qed.

Lemma firstn_ewm_mean k a m s :
  firstn k (ewm_mean a m s) = ewm_mean a m (firstn k s).
Proof.
  unfold ewm_mean.
  now rewrite firstn_map2, firstn_seq, length_firstn, firstn_ewm_raw.
Qed.

Lemma nth_ewm_mean a m s t :
  (t < length s)%nat ->
  nth t (ewm_mean a m s) NaN =
  if (t + 1 <? m)%nat then NaN else nth t (ewm_raw a s) NaN.
Proof.
  intros Ht. unfold ewm_mean.
  rewrite nth_map2 with (dl := 0%nat) (dm := NaN)
    by (rewrite ?length_seq, ?ewm_raw_length; lia).
  now rewrite seq_nth by lia.
Qed.

(** ** Columns of the notebook: lengths *)

Lemma Close_length data : length (Close data) = length data.
Proof. apply length_map. Qed.

Lemma pct_change_length n s : length (pct_change n s) = length s.
Proof.
  unfold pct_change. rewrite length_map, map2_length, shift_length. lia.
Qed.

Lemma diff_length n s : length (diff n s) = length s.
Proof. unfold diff. rewrite map2_length, shift_length. lia. Qed.

Lemma up_direction_length s : length (RSIIndicator.up_direction s) = length s.
Proof.
  unfold RSIIndicator.up_direction, where_, gt_scalar.
  rewrite map2_length, length_map, diff_length. lia.
Qed.

Lemma down_direction_length s :
  length (RSIIndicator.down_direction s) = length s.
Proof.
  unfold RSIIndicator.down_direction, where_, lt_scalar.
  rewrite length_map, map2_length, length_map, diff_length. lia.
Qed.

Lemma emaup_length s w : length (RSIIndicator.emaup s w) = length s.
Proof.
  unfold RSIIndicator.emaup. now rewrite ewm_mean_length, up_direction_length.
Qed.

Lemma emadn_length s w : length (RSIIndicator.emadn s w) = length s.
Proof.
  unfold RSIIndicator.emadn.
  now rewrite ewm_mean_length, down_direction_length.
Qed.

Lemma rsi_length s w : length (RSIIndicator.rsi s w) = length s.
Proof.
  unfold RSIIndicator.rsi, RSIIndicator.relative_strength, eq_scalar.
  rewrite np_where_length;
    rewrite ?length_map, ?broadcast_length, ?map2_length,
      ?emaup_length, ?emadn_length; lia.
Qed.

Lemma RSI_length data : length (RSI data) = length data.
Proof. unfold RSI. now rewrite rsi_length, Close_length. Qed.

Lemma Momentum_5D_length data : length (Momentum_5D data) = length data.
Proof. unfold Momentum_5D. now rewrite pct_change_length, Close_length. Qed.

Lemma SMA_length data : length (SMA data) = length data.
Proof. unfold SMA. now rewrite rolling_length, Close_length. Qed.

Lemma STD_length data : length (STD data) = length data.
Proof. unfold STD. now rewrite rolling_length, Close_length. Qed.

Lemma ZScore_length data : length (ZScore data) = length data.
Proof.
  unfold ZScore.
  rewrite !map2_length, Close_length, SMA_length, STD_length. lia.
Qed.

(** ** Causality: every column commutes with taking a prefix *)

Lemma Close_prefix : prefix_stable Close.
Proof. intros k s. unfold Close. now rewrite firstn_map. Qed.

Lemma pct_change_prefix n : prefix_stable (pct_change n).
Proof.
  intros k s. unfold pct_change.
  now rewrite firstn_map, firstn_map2, firstn_shift.
Qed.

Lemma diff_prefix n : prefix_stable (diff n).
Proof. intros k s. unfold diff. now rewrite firstn_map2, firstn_shift. Qed.

Lemma rsi_prefix w : prefix_stable (fun s => RSIIndicator.rsi s w).
Proof.
  intros k s.
  unfold RSIIndicator.rsi, RSIIndicator.relative_strength,
    RSIIndicator.emaup, RSIIndicator.emadn, RSIIndicator.up_direction,
    RSIIndicator.down_direction, where_, eq_scalar, gt_scalar, lt_scalar.
  cbv zeta.
  now rewrite firstn_np_where, firstn_broadcast, !firstn_map, !firstn_map2,
    !firstn_ewm_mean, !firstn_map, !firstn_map2, !firstn_map, !diff_prefix.
Qed.

Lemma compose_prefix {A B C} (f : list A -> list B) (g : list B -> list C) :
  prefix_stable f -> prefix_stable g -> prefix_stable (fun s => g (f s)).
Proof. intros Hf Hg k s. now rewrite Hg, Hf. Qed.

Lemma Momentum_1D_prefix : prefix_stable Momentum_1D.
Proof. apply (compose_prefix Close), pct_change_prefix. apply Close_prefix. Qed.

Lemma Momentum_5D_prefix : prefix_stable Momentum_5D.
Proof. apply (compose_prefix Close), pct_change_prefix. apply Close_prefix. Qed.

Lemma RSI_prefix : prefix_stable RSI.
Proof.
  apply (compose_prefix Close (fun s => RSIIndicator.rsi s 14)).
  - apply Close_prefix.
  - apply rsi_prefix.
Qed.

Lemma SMA_prefix : prefix_stable SMA.
Proof. intros k s. unfold SMA. now rewrite firstn_rolling, Close_prefix. Qed.

Lemma STD_prefix : prefix_stable STD.
Proof. intros k s. unfold STD. now rewrite firstn_rolling, Close_prefix. Qed.

Lemma ZScore_prefix : prefix_stable ZScore.
Proof.
  intros k s. unfold ZScore.
  now rewrite !firstn_map2, Close_prefix, SMA_prefix, STD_prefix.
Qed.

(** A prefix-stable column read at a timestamp of [s] does not see what
    is appended to [s]. *)
Lemma prefix_stable_at (f : list R -> Series) :
  prefix_stable f ->
  forall s ext t, (t < length s)%nat -> at_ (f (s ++ ext)) t = at_ (f s) t.
Proof.
  intros Hf s ext t Ht. unfold at_.
  transitivity (nth t (firstn (length s) (f (s ++ ext))) NaN).
  - rewrite nth_firstn.
    now replace (t <? length s)%nat with true by (symmetry; apply Nat.ltb_lt; lia).
  - now rewrite Hf, firstn_app, Nat.sub_diag, firstn_all, firstn_O, app_nil_r.
Qed.

(** ** Columns of the notebook: cells *)

Lemma at_Close data t :
  (t < length data)%nat -> at_ (Close data) t = Fin (nth t data 0).
Proof.
  intros Ht. unfold at_, Close.
  rewrite nth_indep with (d' := Fin 0) by now rewrite length_map.
  apply (map_nth Fin).
Qed.

Lemma at_past_end (s : Series) t : (length s <= t)%nat -> at_ s t = NaN.
Proof. intros H. unfold at_. now apply nth_overflow. Qed.

Lemma at_pct_change n s t :
  (t < length s)%nat ->
  at_ (pct_change n s) t =
  if (t <? n)%nat then NaN
  else fsub (fdiv (at_ s t) (at_ s (t - n))) (Fin 1).
Proof.
  intros Ht. unfold at_, pct_change.
  rewrite nth_indep with (d' := fsub NaN (Fin 1))
    by (rewrite length_map, map2_length, shift_length; lia).
  rewrite (map_nth (fun q => fsub q (Fin 1))).
  rewrite nth_map2 with (dl := NaN) (dm := NaN)
    by (rewrite ?shift_length; lia).
  rewrite nth_shift by lia.
  destruct (t <? n)%nat; auto. now destruct (nth t s NaN).
Qed.

(** The momentum of the series 100, 102, 101, 105, 104, 108 at its last
    timestamp, over one and over five periods, and the missing cells
    before. *)
Example momentum_example :
  let data := [100; 102; 101; 105; 104; 108] in
  at_ (Momentum_1D data) 5 = Fin (108 / 104 - 1) /\
  at_ (Momentum_5D data) 5 = Fin (108 / 100 - 1) /\
  at_ (Momentum_1D data) 0 = NaN /\
  at_ (Momentum_5D data) 4 = NaN.
Proof.
  intros data. unfold Momentum_1D, Momentum_5D.
  rewrite !at_pct_change by (simpl; lia).
  unfold at_. simpl. now rcmp.
Qed.

Lemma at_diff n s t :
  (t < length s)%nat ->
  at_ (diff n s) t =
  if (t <? n)%nat then NaN else fsub (at_ s t) (at_ s (t - n)).
Proof.
  intros Ht. unfold at_, diff.
  rewrite nth_map2 with (dl := NaN) (dm := NaN)
    by (rewrite ?shift_length; lia).
  rewrite nth_shift by lia.
  destruct (t <? n)%nat; auto. now destruct (nth t s NaN).
Qed.

Lemma at_rolling w agg s t :
  (t < length s)%nat ->
  at_ (rolling w agg s) t =
  if (t + 1 <? w)%nat then NaN else agg (window_at w s t).
Proof. apply nth_rolling. Qed.

Lemma at_ZScore data t :
  (t < length data)%nat ->
  at_ (ZScore data) t =
  fdiv (fsub (at_ (Close data) t) (at_ (SMA data) t)) (at_ (STD data) t).
Proof.
  intros Ht. unfold at_, ZScore.
  rewrite nth_map2 with (dl := NaN) (dm := NaN)
    by (rewrite ?map2_length, ?Close_length, ?SMA_length, ?STD_length; lia).
  now rewrite nth_map2 with (dl := NaN) (dm := NaN)
    by (rewrite ?Close_length, ?SMA_length; lia).
Qed.

Lemma at_band (op : fval -> fval -> fval) data t :
  (t < length data)%nat ->
  nth t (map2 op (SMA data) (map (fun s => fmul s (Fin 1.5)) (STD data))) NaN =
  op (at_ (SMA data) t) (fmul (at_ (STD data) t) (Fin 1.5)).
Proof.
  intros Ht. unfold at_.
  rewrite nth_map2 with (dl := NaN) (dm := fmul NaN (Fin 1.5))
    by (rewrite ?length_map, ?SMA_length, ?STD_length; lia).
  now rewrite (map_nth (fun s => fmul s (Fin 1.5))).
Qed.

Lemma at_Upper data t :
  (t < length data)%nat ->
  at_ (Upper data) t =
  fadd (at_ (SMA data) t) (fmul (at_ (STD data) t) (Fin 1.5)).
Proof. apply at_band. Qed.

Lemma at_Lower data t :
  (t < length data)%nat ->
  at_ (Lower data) t =
  fsub (at_ (SMA data) t) (fmul (at_ (STD data) t) (Fin 1.5)).
Proof. apply at_band. Qed.

(** ** Window statistics on finite prices *)

Lemma window_at_map {A B} (f : A -> B) w s t :
  window_at w (map f s) t = map f (window_at w s t).
Proof. unfold window_at. now rewrite skipn_map, firstn_map. Qed.

Lemma window_at_length {A} w (s : list A) t :
  (w <= t + 1)%nat -> (t < length s)%nat -> length (window_at w s t) = w.
Proof.
  intros Hw Ht. unfold window_at. rewrite length_firstn, length_skipn. lia.
Qed.

(** The cell at [t] is the last cell of the window that ends at [t]. *)
Lemma window_at_last {A} w (s : list A) t d :
  (0 < w)%nat -> (w <= t + 1)%nat -> (t < length s)%nat ->
  nth (w - 1) (window_at w s t) d = nth t s d.
Proof.
  intros H0 Hw Ht. unfold window_at.
  rewrite nth_firstn.
  replace (w - 1 <? w)%nat with true by (symmetry; apply Nat.ltb_lt; lia).
  rewrite nth_skipn. f_equal. lia.
Qed.

(** The [j]-th cell of the window that ends at [t] is the cell
    [t + 1 - w + j] of the column. *)
Lemma window_at_nth {A} w (s : list A) t j d :
  (j < w)%nat -> nth j (window_at w s t) d = nth (t + 1 - w + j) s d.
Proof.
  intros Hj. unfold window_at. rewrite nth_firstn.
  replace (j <? w)%nat with true by (symmetry; apply Nat.ltb_lt; lia).
  now rewrite nth_skipn.
Qed.

Lemma fsum_Fin l : fsum (map Fin l) = Fin (Rsum l).
Proof.
  unfold fsum, Rsum. induction l as [|x l IH]; simpl; auto.
  now rewrite IH.
Qed.

Lemma IZR_of_nat_pos n : (0 < n)%nat -> 0 < IZR (Z.of_nat n).
Proof. intros H. apply IZR_lt. lia. Qed.

Lemma mean_Fin l : l <> [] -> mean (map Fin l) = Fin (Rmean l).
Proof.
  intros Hl. unfold mean, Rmean, of_nat. rewrite fsum_Fin, length_map. simpl.
  assert (0 < IZR (Z.of_nat (length l)))
    by (apply IZR_of_nat_pos; destruct l; simpl; [congruence | lia]).
  now rcmp.
Qed.

Lemma Rsum_sq_nonneg (f : R -> R) l : 0 <= Rsum (map (fun x => f x * f x) l).
Proof.
  induction l as [|x l IH]; simpl; [lra | nra].
Qed.

Lemma sum_sq_dev_nonneg l : 0 <= sum_sq_dev l.
Proof. apply (Rsum_sq_nonneg (fun x => x - Rmean l)). Qed.

Lemma var_Fin l :
  (2 <= length l)%nat ->
  var 1 (map Fin l) = Fin (sum_sq_dev l / IZR (Z.of_nat (length l - 1))).
Proof.
  intros Hl. unfold var. cbv zeta.
  rewrite mean_Fin by (destruct l; simpl in *; [lia | congruence]).
  rewrite map_map. simpl.
  rewrite <- (map_map (fun x => (x + - Rmean l) * (x + - Rmean l)) Fin).
  rewrite fsum_Fin, length_map. unfold of_nat. simpl.
  assert (0 < IZR (Z.of_nat (length l - 1))) by (apply IZR_of_nat_pos; lia).
  rcmp. reflexivity.
Qed.

Lemma std_Fin l :
  (2 <= length l)%nat ->
  std (map Fin l) = Fin (sqrt (sum_sq_dev l / IZR (Z.of_nat (length l - 1)))).
Proof.
  intros Hl. unfold std. rewrite var_Fin by assumption. simpl.
  assert (0 < IZR (Z.of_nat (length l - 1))) by (apply IZR_of_nat_pos; lia).
  assert (0 <= sum_sq_dev l / IZR (Z.of_nat (length l - 1))).
  { apply Rmult_le_pos; [apply sum_sq_dev_nonneg|].
    left. now apply Rinv_0_lt_compat. }
  now rcmp.
Qed.

Lemma at_SMA data t :
  (t < length data)%nat ->
  at_ (SMA data) t =
  if (t <? 19)%nat then NaN else Fin (Rmean (window_at 20 data t)).
Proof.
  intros Ht. unfold SMA, window.
  rewrite at_rolling by now rewrite Close_length.
  destruct (t + 1 <? 20)%nat eqn:E.
  - apply Nat.ltb_lt in E.
    now replace (t <? 19)%nat with true by (symmetry; apply Nat.ltb_lt; lia).
  - apply Nat.ltb_ge in E.
    replace (t <? 19)%nat with false by (symmetry; apply Nat.ltb_ge; lia).
    unfold Close. rewrite window_at_map. apply mean_Fin.
    intros C. apply (f_equal (@length R)) in C.
    rewrite window_at_length in C by lia. discriminate.
Qed.

Lemma at_STD data t :
  (t < length data)%nat ->
  at_ (STD data) t =
  if (t <? 19)%nat then NaN
  else Fin (sqrt (sum_sq_dev (window_at 20 data t) / 19)).
Proof.
  intros Ht. unfold STD, window.
  rewrite at_rolling by now rewrite Close_length.
  destruct (t + 1 <? 20)%nat eqn:E.
  - apply Nat.ltb_lt in E.
    now replace (t <? 19)%nat with true by (symmetry; apply Nat.ltb_lt; lia).
  - apply Nat.ltb_ge in E.
    replace (t <? 19)%nat with false by (symmetry; apply Nat.ltb_ge; lia).
    unfold Close. rewrite window_at_map.
    rewrite std_Fin by (rewrite window_at_length; lia).
    now rewrite window_at_length by lia.
Qed.

(** ** Signal classification *)

Lemma nth_lt_scalar s c t : nth t (lt_scalar s c) false = flt (at_ s t) c.
Proof. exact (map_nth (fun x => flt x c) s NaN t). Qed.

Lemma nth_gt_scalar s c t : nth t (gt_scalar s c) false = flt c (at_ s t).
Proof.
  unfold gt_scalar, at_, fgt.
  rewrite <- (map_nth (fun x => flt c x)). now rewrite flt_NaN_r.
Qed.

Lemma nth_mask_and a b t :
  length a = length b ->
  nth t (mask_and a b) false = nth t a false && nth t b false.
Proof.
  intros E. unfold mask_and.
  destruct (Nat.lt_ge_cases t (length a)) as [H|H].
  - apply nth_map2; lia.
  - rewrite !nth_overflow; auto; try lia. rewrite map2_length. lia.
Qed.

(** The cell of the nested [np.where], as a decision on the two cells it
    reads. *)
Lemma momentum_signal_at m5 rsi t :
  length rsi = length m5 -> (t < length m5)%nat ->
  nth t (momentum_signal m5 rsi) 0%Z =
  if flt (Fin 0) (at_ m5 t) && flt (Fin 30) (at_ rsi t) && flt (at_ rsi t) (Fin 70)
  then 1%Z
  else if flt (at_ m5 t) (Fin 0) && flt (Fin 70) (at_ rsi t) then (-1)%Z
  else 0%Z.
Proof.
  intros E Ht. unfold momentum_signal.
  assert (L1 : length (mask_and (lt_scalar m5 (Fin 0)) (gt_scalar rsi (Fin 70)))
               = length m5).
  { unfold mask_and, lt_scalar, gt_scalar.
    rewrite map2_length, !length_map. lia. }
  assert (L2 : length (mask_and (mask_and (gt_scalar m5 (Fin 0))
                  (gt_scalar rsi (Fin 30))) (lt_scalar rsi (Fin 70)))
               = length m5).
  { unfold mask_and, lt_scalar, gt_scalar.
    rewrite !map2_length, !length_map. lia. }
  assert (B : forall z : Z, nth t (broadcast m5 z) 0%Z = z).
  { intros z. unfold broadcast.
    rewrite nth_indep with (d' := z) by now rewrite repeat_length.
    apply nth_repeat. }
  rewrite nth_np_where;
    [| lia | now rewrite broadcast_length
     | rewrite np_where_length; rewrite ?broadcast_length; lia ].
  rewrite nth_np_where;
    [| lia | now rewrite broadcast_length | now rewrite broadcast_length ].
  rewrite !B.
  rewrite !nth_mask_and, !nth_gt_scalar, !nth_lt_scalar;
    unfold mask_and, gt_scalar, lt_scalar;
    rewrite ?map2_length, ?length_map; auto; lia.
Qed.

Lemma Signal_at data t :
  (t < length data)%nat ->
  nth t (Signal data) 0%Z =
  if flt (Fin 0) (at_ (Momentum_5D data) t)
     && flt (Fin 30) (at_ (RSI data) t) && flt (at_ (RSI data) t) (Fin 70)
  then 1%Z
  else if flt (at_ (Momentum_5D data) t) (Fin 0)
          && flt (Fin 70) (at_ (RSI data) t) then (-1)%Z
  else 0%Z.
Proof.
  intros Ht. unfold Signal. apply momentum_signal_at.
  - now rewrite RSI_length, Momentum_5D_length.
  - now rewrite Momentum_5D_length.
Qed.

(** C1.  At every timestamp of the series the [Signal] cell is 1 (Buy)
    exactly when [Momentum_5D > 0] and [30 < RSI < 70], is -1 (Sell)
    exactly when [Momentum_5D < 0] and [RSI > 70], and is 0 (Neutral)
    exactly when neither holds; in particular it is 0 when either
    indicator is missing and when the RSI is exactly 30 or exactly 70. *)
Theorem momentum_signal_classification (data : list R) (t : nat) :
  (t < length data)%nat ->
  let m := at_ (Momentum_5D data) t in
  let r := at_ (RSI data) t in
  let s := nth t (Signal data) 0%Z in
  (s = 1%Z <-> fLt (Fin 0) m /\ fLt (Fin 30) r /\ fLt r (Fin 70)) /\
  (s = (-1)%Z <-> fLt m (Fin 0) /\ fLt (Fin 70) r) /\
  (s = 0%Z <->
     ~ (fLt (Fin 0) m /\ fLt (Fin 30) r /\ fLt r (Fin 70)) /\
     ~ (fLt m (Fin 0) /\ fLt (Fin 70) r)) /\
  (m = NaN \/ r = NaN \/ r = Fin 30 \/ r = Fin 70 -> s = 0%Z).
Proof.
  intros Ht m r s. subst s. rewrite Signal_at by assumption.
  fold m r. unfold fLt.
  assert (X : flt (Fin 0) m = true -> flt m (Fin 0) = true -> False)
    by apply flt_asym.
  assert (T30 : r = Fin 30 -> flt (Fin 30) r = false /\ flt (Fin 70) r = false).
  { intros ->. simpl. split; apply Rltb_false_iff; lra. }
  assert (T70 : r = Fin 70 -> flt r (Fin 70) = false /\ flt (Fin 70) r = false).
  { intros ->. simpl. split; apply Rltb_false_iff; lra. }
  assert (N1 : m = NaN -> flt (Fin 0) m = false /\ flt m (Fin 0) = false)
    by (intros ->; auto).
  assert (N2 : r = NaN -> flt (Fin 30) r = false /\ flt (Fin 70) r = false)
    by (intros ->; auto).
  destruct (flt (Fin 0) m) eqn:A, (flt (Fin 30) r) eqn:B,
    (flt r (Fin 70)) eqn:C, (flt m (Fin 0)) eqn:D, (flt (Fin 70) r) eqn:F;
    simpl; repeat split; intros; try discriminate; try tauto;
    try (exfalso; now apply X);
    intuition (try discriminate; try congruence).
Qed.

Lemma momentum_signal_classification_witness :
  let data := [100; 102; 101; 105; 104; 108] in
  nth 5 (Signal data) 0%Z = 0%Z <->
  ~ (fLt (Fin 0) (at_ (Momentum_5D data) 5) /\
     fLt (Fin 30) (at_ (RSI data) 5) /\ fLt (at_ (RSI data) 5) (Fin 70)) /\
  ~ (fLt (at_ (Momentum_5D data) 5) (Fin 0) /\ fLt (Fin 70) (at_ (RSI data) 5)).
Proof.
  intros data.
  apply (momentum_signal_classification data 5).
  simpl. lia.
Defined.

(** The positions [loc_index] selects are those where the mask holds. *)
Lemma in_combine_seq (m : list bool) a i b :
  In (i, b) (combine (seq a (length m)) m) <->
  (a <= i < a + length m)%nat /\ nth (i - a) m false = b.
Proof.
  revert a. induction m as [|c m IH]; intros a; simpl.
  - split; [tauto | lia].
  - rewrite IH. split.
    + intros [E | [H1 H2]].
      * inversion E; subst. rewrite Nat.sub_diag. split; [lia | reflexivity].
      * split; [lia|]. destruct (i - a)%nat as [|k] eqn:K; [lia|].
        now replace k with (i - S a)%nat by lia.
    + intros [H1 H2]. destruct (i - a)%nat as [|k] eqn:K.
      * left. f_equal; [lia | assumption].
      * right. split; [lia|]. now replace (i - S a)%nat with k by lia.
Qed.

Lemma in_loc_index mask t : In t (loc_index mask) <-> nth t mask false = true.
Proof.
  unfold loc_index. rewrite in_map_iff. split.
  - intros [[i b] [E H]]. simpl in E. subst i.
    apply filter_In in H. destruct H as [H Hb]. simpl in Hb. subst b.
    apply in_combine_seq in H. rewrite Nat.sub_0_r in H. tauto.
  - intros H. exists (t, true). split; auto.
    apply filter_In. split; auto.
    apply in_combine_seq. rewrite Nat.sub_0_r. split; auto.
    destruct (Nat.lt_ge_cases t (length mask)); [lia|].
    rewrite nth_overflow in H by lia. discriminate.
Qed.

Lemma marked_iff markers t : marked markers t = true <-> In t markers.
Proof.
  unfold marked. rewrite existsb_exists. split.
  - intros [x [H E]]. apply Nat.eqb_eq in E. now subst.
  - intros H. exists t. split; auto. apply Nat.eqb_refl.
Qed.

Lemma buy_marked data t :
  marked (buy_markers data) t = flt (at_ (ZScore data) t) (Fin (-1.5)).
Proof.
  apply eq_true_iff_eq. rewrite marked_iff. unfold buy_markers.
  rewrite in_loc_index. unfold buy_mask. now rewrite nth_lt_scalar.
Qed.

Lemma sell_marked data t :
  marked (sell_markers data) t = flt (Fin 1.5) (at_ (ZScore data) t).
Proof.
  apply eq_true_iff_eq. rewrite marked_iff. unfold sell_markers.
  rewrite in_loc_index. unfold sell_mask. now rewrite nth_gt_scalar.
Qed.

(** The reading of the two traces at a timestamp, as a decision on its
    Z-score. *)
Lemma reversion_signal_at data t :
  reversion_signal data t =
  if flt (at_ (ZScore data) t) (Fin (-1.5)) then Buy
  else if flt (Fin 1.5) (at_ (ZScore data) t) then Sell
  else Neutral.
Proof. unfold reversion_signal. now rewrite buy_marked, sell_marked. Qed.

Lemma reversion_signal_NaN data t :
  at_ (ZScore data) t = NaN -> reversion_signal data t = Neutral.
Proof. intros H. now rewrite reversion_signal_at, H. Qed.

Lemma below_not_above (z : fval) :
  flt z (Fin (-1.5)) = true -> flt (Fin 1.5) z = true -> False.
Proof.
  intros H1 H2. pose proof (flt_trans _ _ _ H2 H1) as H.
  apply flt_Fin in H. lra.
Qed.

(** C2.  With the band multiplier 1.5, the Buy trace marks a timestamp
    exactly when its Z-score is below -1.5, the Sell trace exactly when
    it is above 1.5, and the timestamp is Neutral (marked by neither)
    otherwise; a timestamp whose Z-score is missing is marked by
    neither. *)
Theorem reversion_classification (data : list R) (t : nat) :
  let z := at_ (ZScore data) t in
  (In t (buy_markers data) <-> fLt z (Fin (-1.5))) /\
  (In t (sell_markers data) <-> fLt (Fin 1.5) z) /\
  (reversion_signal data t = Buy <-> fLt z (Fin (-1.5))) /\
  (reversion_signal data t = Sell <-> fLt (Fin 1.5) z) /\
  (reversion_signal data t = Neutral <->
     ~ fLt z (Fin (-1.5)) /\ ~ fLt (Fin 1.5) z) /\
  (z = NaN ->
     ~ In t (buy_markers data) /\ ~ In t (sell_markers data) /\
     reversion_signal data t = Neutral).
Proof.
  intros z. rewrite reversion_signal_at. unfold fLt.
  rewrite <- !marked_iff, buy_marked, sell_marked. fold z.
  pose proof (below_not_above z) as X.
  assert (N : z = NaN -> flt z (Fin (-1.5)) = false /\ flt (Fin 1.5) z = false)
    by (intros ->; auto).
  destruct (flt z (Fin (-1.5))) eqn:A, (flt (Fin 1.5) z) eqn:B;
    repeat split; intros; try discriminate; try tauto;
    try (exfalso; now apply X);
    intuition (try discriminate; try congruence).
Qed.

Lemma reversion_classification_witness :
  reversion_signal [50; 50; 50] 1 = Neutral.
Proof.
  apply (reversion_classification [50; 50; 50] 1).
  unfold at_. simpl. reflexivity.
Defined.

(** C7.  Signal exclusivity.  For any indicator values the Buy and the
    Sell condition of the momentum engine cannot hold together, nor can
    those of the mean-reversion engine; every [Signal] cell is exactly one
    of 1, -1 and 0, and no timestamp carries both a Buy and a Sell
    marker. *)
Theorem signal_exclusivity :
  (forall m r : fval,
      ~ ((fLt (Fin 0) m /\ fLt (Fin 30) r /\ fLt r (Fin 70)) /\
         (fLt m (Fin 0) /\ fLt (Fin 70) r))) /\
  (forall z : fval, ~ (fLt z (Fin (-1.5)) /\ fLt (Fin 1.5) z)) /\
  (forall (data : list R) (t : nat),
      let s := nth t (Signal data) 0%Z in
      (s = 1%Z /\ signal_of_int s = Buy) \/
      (s = (-1)%Z /\ signal_of_int s = Sell) \/
      (s = 0%Z /\ signal_of_int s = Neutral)) /\
  (forall (m5 rsi : Series) (t : nat),
      let s := nth t (momentum_signal m5 rsi) 0%Z in
      s = 1%Z \/ s = (-1)%Z \/ s = 0%Z) /\
  (forall (data : list R) (t : nat),
      ~ (In t (buy_markers data) /\ In t (sell_markers data))).
Proof.
  assert (G : forall (m5 rsi : Series) (t : nat),
             let s := nth t (momentum_signal m5 rsi) 0%Z in
             s = 1%Z \/ s = (-1)%Z \/ s = 0%Z).
  { intros m5 rsi t. cbv zeta. unfold momentum_signal.
    generalize (mask_and (mask_and (gt_scalar m5 (Fin 0))
                  (gt_scalar rsi (Fin 30))) (lt_scalar rsi (Fin 70))) as c1.
    generalize (mask_and (lt_scalar m5 (Fin 0)) (gt_scalar rsi (Fin 70))) as c2.
    unfold broadcast. generalize (length m5) as n.
    intros n c2 c1. revert n c2 c1.
    induction t as [|t IH]; intros [|n] [|b2 c2] [|b1 c1]; simpl; auto.
    destruct b1, b2; auto. }
  repeat split.
  - intros m r [[H1 _] [H2 _]]. exact (flt_asym _ _ H1 H2).
  - intros z [H1 H2]. exact (below_not_above z H1 H2).
  - intros data t s. destruct (G (Momentum_5D data) (RSI data) t) as [E|[E|E]];
      fold (Signal data) in E; fold s in E; rewrite E; auto.
  - exact G.
  - intros data t [H1 H2].
    apply marked_iff in H1, H2. rewrite buy_marked in H1.
    rewrite sell_marked in H2. exact (below_not_above _ H1 H2).
Qed.

Lemma signal_exclusivity_witness :
  ~ (In 19%nat (buy_markers (repeat 50 19 ++ [70])) /\
     In 19%nat (sell_markers (repeat 50 19 ++ [70]))).
Proof.
  apply signal_exclusivity.
Defined.

(** ** Mean reversion: standard deviation, Z-score, bands *)

Lemma Rsum_sq_zero (f : R -> R) l :
  Rsum (map (fun x => f x * f x) l) = 0 -> forall x, In x l -> f x = 0.
Proof.
  induction l as [|y l IH]; simpl; intros H x Hx; [tauto|].
  pose proof (Rsum_sq_nonneg f l) as P.
  destruct Hx as [-> | Hx].
  - nra.
  - apply IH; auto. nra.
Qed.

Lemma Rsum_const c l : (forall x, In x l -> x = c) ->
  Rsum l = IZR (Z.of_nat (length l)) * c.
Proof.
  induction l as [|y l IH]; intros H.
  - simpl. lra.
  - cbn [Rsum fold_right length]. fold (Rsum l).
    rewrite IH by (intros; apply H; now right).
    rewrite (H y) by now left.
    rewrite Nat2Z.inj_succ, succ_IZR. lra.
Qed.

Lemma Rmean_const c l : l <> [] -> (forall x, In x l -> x = c) -> Rmean l = c.
Proof.
  intros Hl H. unfold Rmean. rewrite (Rsum_const c) by assumption.
  assert (0 < IZR (Z.of_nat (length l)))
    by (apply IZR_of_nat_pos; destruct l; simpl; [congruence | lia]).
  field. lra.
Qed.

Lemma sum_sq_dev_const c l :
  l <> [] -> (forall x, In x l -> x = c) -> sum_sq_dev l = 0.
Proof.
  intros Hl H. unfold sum_sq_dev. rewrite (Rmean_const c) by assumption.
  clear Hl. induction l as [|y l IH]; simpl; auto.
  fold (Rsum (map (fun x => (x - c) * (x - c)) l)).
  rewrite IH by (intros; apply H; now right).
  rewrite (H y) by now left. lra.
Qed.

Lemma window_nonempty {A} (s : list A) t :
  (19 <= t)%nat -> (t < length s)%nat -> window_at 20 s t <> [].
Proof.
  intros H1 H2 C. apply (f_equal (@length A)) in C.
  rewrite window_at_length in C by lia. discriminate.
Qed.

(** A standard deviation of zero means that the price at [t] is the
    window mean. *)
Lemma STD_zero_close_is_mean data t :
  (t < length data)%nat -> at_ (STD data) t = Fin 0 ->
  (19 <= t)%nat /\ nth t data 0 = Rmean (window_at 20 data t).
Proof.
  intros Ht H. rewrite at_STD in H by assumption.
  destruct (t <? 19)%nat eqn:E; [discriminate|].
  apply Nat.ltb_ge in E. split; auto.
  injection H as H.
  pose proof (sum_sq_dev_nonneg (window_at 20 data t)) as P.
  apply sqrt_eq_0 in H; [| lra].
  assert (Z : sum_sq_dev (window_at 20 data t) = 0) by lra.
  pose proof (Rsum_sq_zero (fun x => x - Rmean (window_at 20 data t)) _ Z
                (nth t data 0)) as Q.
  cbv beta in Q. enough (In (nth t data 0) (window_at 20 data t)) by (apply Q in H0; lra).
  rewrite <- (window_at_last 20 data t 0) by lia.
  apply nth_In. rewrite window_at_length; lia.
Qed.

Lemma STD_defined_in_range data t s :
  at_ (STD data) t = Fin s -> (19 <= t < length data)%nat.
Proof.
  intros H. destruct (Nat.lt_ge_cases t (length data)) as [Ht|Ht].
  - rewrite at_STD in H by assumption.
    destruct (t <? 19)%nat eqn:E; [discriminate|].
    apply Nat.ltb_ge in E. lia.
  - rewrite at_past_end in H by now rewrite STD_length. discriminate.
Qed.

(** C9.  Once 20 observations exist, [STD(t)] is the sample standard
    deviation of the 20 closes ending at [t]: the square root of the sum
    of squared deviations from their mean over 19; it differs from the
    population value (over 20) unless all deviations vanish. *)
Theorem STD_is_sample_std (data : list R) (t : nat) :
  (19 <= t < length data)%nat ->
  let win := window_at 20 data t in
  length win = 20%nat /\
  (forall j, (j < 20)%nat -> nth j win 0 = nth (t - 19 + j) data 0) /\
  Rmean win = Rsum win / 20 /\
  sum_sq_dev win = Rsum (map (fun x => (x - Rmean win) * (x - Rmean win)) win) /\
  at_ (STD data) t = Fin (sqrt (sum_sq_dev win / 19)) /\
  (sum_sq_dev win <> 0 ->
   at_ (STD data) t <> Fin (sqrt (sum_sq_dev win / 20))).
Proof.
  intros [H1 H2] win.
  assert (L : length win = 20%nat) by (apply window_at_length; lia).
  split; [exact L|]. split; [|split; [|split; [|split]]].
  - intros j Hj. unfold win. rewrite window_at_nth by assumption.
    f_equal. lia.
  - unfold Rmean. now rewrite L.
  - reflexivity.
  - rewrite at_STD by lia.
    now replace (t <? 19)%nat with false by (symmetry; apply Nat.ltb_ge; lia).
  - intros Hnz. rewrite at_STD by lia.
    replace (t <? 19)%nat with false by (symmetry; apply Nat.ltb_ge; lia).
    fold win. intros C. injection C as C.
    pose proof (sum_sq_dev_nonneg win) as P.
    apply sqrt_inj in C; lra.
Qed.

Lemma STD_is_sample_std_witness :
  at_ (STD (repeat 50 19 ++ [70])) 19 <>
  Fin (sqrt (sum_sq_dev (window_at 20 (repeat 50 19 ++ [70]) 19) / 20)).
Proof.
  apply (STD_is_sample_std (repeat 50 19 ++ [70]) 19).
  - simpl. lia.
  - unfold sum_sq_dev, Rmean. simpl. lra.
Defined.

(** C4.  Where the mean and a nonzero deviation are defined the Z-score
    is [(close - SMA) / STD]; where the deviation is missing or zero the
    Z-score is missing, a value and not an error.  On a window of 20
    equal closes the deviation is 0 and the Z-score is missing, and on a
    constant series no timestamp is marked: every signal is Neutral. *)
Theorem ZScore_division_guard (data : list R) (t : nat) :
  (t < length data)%nat ->
  (forall m s, at_ (SMA data) t = Fin m -> at_ (STD data) t = Fin s -> s <> 0 ->
     at_ (ZScore data) t = Fin ((nth t data 0 - m) / s)) /\
  (at_ (STD data) t = NaN -> at_ (ZScore data) t = NaN) /\
  (at_ (STD data) t = Fin 0 -> at_ (ZScore data) t = NaN) /\
  (forall c, (19 <= t)%nat ->
     (forall j, (j < 20)%nat -> nth (t - 19 + j) data 0 = c) ->
     at_ (SMA data) t = Fin c /\ at_ (STD data) t = Fin 0 /\
     at_ (ZScore data) t = NaN /\ reversion_signal data t = Neutral) /\
  (forall c, (forall i, (i < length data)%nat -> nth i data 0 = c) ->
     forall u, reversion_signal data u = Neutral).
Proof.
  intros Ht.
  assert (Z0 : at_ (STD data) t = Fin 0 -> at_ (ZScore data) t = NaN).
  { intros H. rewrite at_ZScore, H, at_Close by assumption.
    destruct (STD_zero_close_is_mean data t Ht H) as [H19 E].
    rewrite at_SMA by assumption.
    replace (t <? 19)%nat with false by (symmetry; apply Nat.ltb_ge; lia).
    rewrite E. simpl. unfold inf_of_sign. now rcmp. }
  assert (K : forall data t c, (19 <= t < length data)%nat ->
     (forall j, (j < 20)%nat -> nth (t - 19 + j) data 0 = c) ->
     at_ (SMA data) t = Fin c /\ at_ (STD data) t = Fin 0).
  { clear. intros data t c [H19 Ht] Hc.
    assert (A : forall x, In x (window_at 20 data t) -> x = c).
    { intros x Hx. apply (In_nth _ _ 0) in Hx. destruct Hx as [j [Hj E]].
      rewrite window_at_length in Hj by lia.
      rewrite window_at_nth in E by assumption. rewrite <- E.
      replace (t + 1 - 20)%nat with (t - 19)%nat by lia. now apply Hc. }
    pose proof (window_nonempty data t H19 Ht) as NE.
    rewrite at_SMA, at_STD by assumption.
    replace (t <? 19)%nat with false by (symmetry; apply Nat.ltb_ge; lia).
    rewrite (Rmean_const c), (sum_sq_dev_const c) by assumption.
    split; auto. f_equal. unfold Rdiv. rewrite Rmult_0_l. apply sqrt_0. }
  assert (NN : forall data u, at_ (ZScore data) u = NaN ->
                              reversion_signal data u = Neutral).
  { clear. intros data u H. now apply reversion_signal_NaN. }
  split; [|split; [|split; [|split]]].
  - intros m s Hm Hs Hnz.
    rewrite at_ZScore, Hm, Hs, at_Close by assumption. simpl. now rcmp.
  - intros H. rewrite at_ZScore, H by assumption.
    now destruct (fsub (at_ (Close data) t) (at_ (SMA data) t)).
  - exact Z0.
  - intros c H19 Hc. destruct (K data t c (conj H19 Ht) Hc) as [Hm Hs].
    repeat split; auto.
  - intros c Hc u. apply NN.
    destruct (Nat.lt_ge_cases u (length data)) as [Hu|Hu];
      [| now rewrite at_past_end by now rewrite ZScore_length].
    destruct (Nat.lt_ge_cases u 19) as [H19|H19].
    + rewrite at_ZScore, at_STD by assumption.
      replace (u <? 19)%nat with true by (symmetry; apply Nat.ltb_lt; lia).
      now destruct (fsub (at_ (Close data) u) (at_ (SMA data) u)).
    + destruct (K data u c (conj H19 Hu)) as [Hm Hs].
      { intros j Hj. apply Hc. lia. }
      clear Z0. rewrite at_ZScore, Hs, Hm, at_Close by assumption.
      rewrite Hc by assumption. simpl. unfold inf_of_sign. now rcmp.
Qed.

Lemma ZScore_division_guard_witness :
  at_ (SMA (repeat 50 25)) 22 = Fin 50 /\
  at_ (STD (repeat 50 25)) 22 = Fin 0 /\
  at_ (ZScore (repeat 50 25)) 22 = NaN /\
  reversion_signal (repeat 50 25) 22 = Neutral.
Proof.
  apply (ZScore_division_guard (repeat 50 25) 22).
  - simpl. lia.
  - lia.
  - intros j Hj.
    do 20 (destruct j as [|j]; [reflexivity|]). lia.
Defined.

(** C8 (as the code has it).  The bands are built with the multiplier
    1.5 and the two marker masks compare the Z-score with -1.5 and 1.5,
    the same constant.  Wherever the deviation is defined and strictly
    positive, and on the real-number values of the cells, the Buy mask
    holds (the Z-score is below -1.5) exactly when the close is below the
    lower band, and the Sell mask holds (the Z-score is above 1.5) exactly
    when the close is above the upper band. *)
Theorem band_threshold_agreement (data : list R) (t : nat) (s : R) :
  at_ (STD data) t = Fin s -> 0 < s ->
  (* the bands and the masks, with the one constant *)
  at_ (Upper data) t = fadd (at_ (SMA data) t) (fmul (Fin s) (Fin 1.5)) /\
  at_ (Lower data) t = fsub (at_ (SMA data) t) (fmul (Fin s) (Fin 1.5)) /\
  nth t (buy_mask (ZScore data)) false = flt (at_ (ZScore data) t) (Fin (-1.5)) /\
  nth t (sell_mask (ZScore data)) false = flt (Fin 1.5) (at_ (ZScore data) t) /\
  (* threshold crossings are band crossings *)
  (fLt (at_ (ZScore data) t) (Fin (-1.5)) <->
   fLt (at_ (Close data) t) (at_ (Lower data) t)) /\
  (fLt (Fin 1.5) (at_ (ZScore data) t) <->
   fLt (at_ (Upper data) t) (at_ (Close data) t)) /\
  (* and so are the markers *)
  (In t (buy_markers data) <->
   fLt (at_ (Close data) t) (at_ (Lower data) t)) /\
  (In t (sell_markers data) <->
   fLt (at_ (Upper data) t) (at_ (Close data) t)).
Proof.
  intros Hs Hpos.
  destruct (STD_defined_in_range data t s Hs) as [H19 Ht].
  assert (B : fLt (at_ (ZScore data) t) (Fin (-1.5)) <->
              fLt (at_ (Close data) t) (at_ (Lower data) t)).
  { rewrite at_Lower, at_ZScore, Hs, at_Close, at_SMA by assumption.
    replace (t <? 19)%nat with false by (symmetry; apply Nat.ltb_ge; lia).
    set (c := nth t data 0). set (m := Rmean (window_at 20 data t)).
    unfold fLt. simpl. rcmp. simpl. rewrite !Rltb_iff.
    assert (E : c + - m = (c + - m) / s * s) by (field; lra).
    set (q := (c + - m) / s) in *. split; intros H; nra. }
  assert (S : fLt (Fin 1.5) (at_ (ZScore data) t) <->
              fLt (at_ (Upper data) t) (at_ (Close data) t)).
  { rewrite at_Upper, at_ZScore, Hs, at_Close, at_SMA by assumption.
    replace (t <? 19)%nat with false by (symmetry; apply Nat.ltb_ge; lia).
    set (c := nth t data 0). set (m := Rmean (window_at 20 data t)).
    unfold fLt. simpl. rcmp. simpl. rewrite !Rltb_iff.
    assert (E : c + - m = (c + - m) / s * s) by (field; lra).
    set (q := (c + - m) / s) in *. split; intros H; nra. }
  split; [now rewrite at_Upper, Hs by assumption|].
  split; [now rewrite at_Lower, Hs by assumption|].
  split; [unfold buy_mask; apply nth_lt_scalar|].
  split; [unfold sell_mask; apply nth_gt_scalar|].
  split; [exact B|]. split; [exact S|]. split.
  - rewrite <- B, <- marked_iff, buy_marked. reflexivity.
  - rewrite <- S, <- marked_iff, sell_marked. reflexivity.
Qed.

Lemma band_threshold_agreement_witness :
  let data := repeat 50 19 ++ [70] in
  In 19%nat (sell_markers data) <->
  fLt (at_ (Upper data) 19) (at_ (Close data) 19).
Proof.
  intros data.
  assert (S20 : sum_sq_dev (window_at 20 data 19) / 19 = 20).
  { unfold sum_sq_dev, Rmean. simpl. lra. }
  apply (band_threshold_agreement data 19 (sqrt 20)).
  - rewrite at_STD by (simpl; lia). simpl Nat.ltb. cbv iota.
    now rewrite S20.
  - apply sqrt_lt_R0. lra.
Defined.

(** On doubles the two tests can part at a tie.  With a close of 203, a
    moving average of 200 and a deviation one rounding step short of 2
    (22 units in the last place), the Z-score is above 1.5, so the row
    carries a Sell marker, while the upper band rounds to 203 and the
    close is not above it. *)
Lemma double_sell_marker_on_upper_band :
  let close := 203%float in
  let sma := 200%float in
  let std := 0x1.fffffffffffeap+0%float in
  PrimFloat.ltb 0%float std = true /\
  Double.sell_mask (Double.ZScore close sma std) = true /\
  PrimFloat.ltb (Double.Upper sma std) close = false /\
  Double.Upper sma std = close.
Proof. vm_compute. repeat split. Qed.

(** ** The RSI column *)

Lemma wilder_from_step a y x p :
  wilder_from a y x (S p) =
  wilder_from a ((1 - a) * y + a * x O) (fun i => x (S i)) p.
Proof.
  induction p as [|p IH].
  - reflexivity.
  - change (wilder_from a y x (S (S p)))
      with ((1 - a) * wilder_from a y x (S p) + a * x (S (S p))).
    now rewrite IH.
Qed.

Lemma wilder_succ a x p :
  wilder a x (S p) = wilder_from a (x O) (fun i => x (S i)) p.
Proof.
  induction p as [|p IH].
  - reflexivity.
  - change (wilder a x (S (S p)))
      with ((1 - a) * wilder a x (S p) + a * x (S (S p))).
    now rewrite IH.
Qed.

Lemma nth_ewm_from (a : R) s : forall (x : nat -> R) y t,
  (forall i, (i < length s)%nat -> nth i s NaN = Fin (x i)) ->
  (t < length s)%nat ->
  nth t (ewm_from (Fin a) (Fin y) s) NaN = Fin (wilder_from a y x t).
Proof.
  induction s as [|v s IH]; intros x y t Hx Ht; [simpl in Ht; lia|].
  pose proof (Hx 0%nat ltac:(simpl; lia)) as H0. simpl in H0. subst v.
  destruct t as [|t].
  - reflexivity.
  - cbn [ewm_from nth]. rewrite wilder_from_step.
    apply (IH (fun i => x (S i))).
    + intros i Hi. apply (Hx (S i)). simpl. lia.
    + simpl in Ht. lia.
Qed.

Lemma nth_ewm_raw (a : R) s (x : nat -> R) t :
  (forall i, (i < length s)%nat -> nth i s NaN = Fin (x i)) ->
  (t < length s)%nat ->
  nth t (ewm_raw (Fin a) s) NaN = Fin (wilder a x t).
Proof.
  intros Hx Ht. destruct s as [|v s]; [simpl in Ht; lia|].
  pose proof (Hx 0%nat ltac:(simpl; lia)) as H0. simpl in H0. subst v.
  destruct t as [|t].
  - reflexivity.
  - cbn [ewm_raw nth]. rewrite wilder_succ.
    apply (nth_ewm_from a s (fun i => x (S i))).
    + intros i Hi. apply (Hx (S i)). simpl. lia.
    + simpl in Ht. lia.
Qed.

Lemma alpha_14 : RSIIndicator.alpha 14 = Fin (1 / 14).
Proof. unfold RSIIndicator.alpha, of_nat. simpl. now rcmp. Qed.

Lemma nth_where_ s c o t :
  (t < length s)%nat -> length c = length s ->
  nth t (where_ s c o) NaN = if nth t c false then nth t s NaN else o.
Proof.
  intros Ht E. unfold where_.
  now rewrite nth_map2 with (dl := NaN) (dm := false) by lia.
Qed.

Lemma at_up_direction data t :
  (t < length data)%nat ->
  at_ (RSIIndicator.up_direction (Close data)) t = Fin (gain data t).
Proof.
  intros Ht. unfold at_, RSIIndicator.up_direction. cbv zeta.
  rewrite nth_where_
    by (unfold gt_scalar; rewrite ?length_map, diff_length, Close_length; lia).
  rewrite nth_gt_scalar. fold (at_ (diff 1 (Close data)) t).
  rewrite at_diff by now rewrite Close_length.
  destruct t as [|t]; [reflexivity|].
  simpl Nat.ltb. cbv iota. rewrite !at_Close by lia.
  replace (S t - 1)%nat with t by lia.
  unfold gain, Rmax. simpl.
  destruct (Rle_dec (nth (S t) data 0 - nth t data 0) 0).
  - now rcmp.
  - now rcmp.
Qed.

Lemma at_down_direction data t :
  (t < length data)%nat ->
  at_ (RSIIndicator.down_direction (Close data)) t = Fin (loss data t).
Proof.
  intros Ht. unfold at_, RSIIndicator.down_direction. cbv zeta.
  rewrite nth_indep with (d' := fneg NaN)
    by (unfold where_, lt_scalar;
        rewrite length_map, map2_length, length_map, diff_length, Close_length;
        lia).
  rewrite (map_nth fneg).
  rewrite nth_where_
    by (unfold lt_scalar; rewrite ?length_map, diff_length, Close_length; lia).
  rewrite nth_lt_scalar. fold (at_ (diff 1 (Close data)) t).
  rewrite at_diff by now rewrite Close_length.
  destruct t as [|t]; [simpl; f_equal; lra|].
  simpl Nat.ltb. cbv iota. rewrite !at_Close by lia.
  replace (S t - 1)%nat with t by lia.
  unfold loss, Rmax. simpl.
  destruct (Rle_dec (nth t data 0 - nth (S t) data 0) 0).
  - rcmp. simpl. f_equal. lra.
  - rcmp. simpl. f_equal. lra.
Qed.

Lemma at_emaup data t :
  (t < length data)%nat ->
  at_ (RSIIndicator.emaup (Close data) 14) t =
  if (t <? 13)%nat then NaN else Fin (avg_gain data t).
Proof.
  intros Ht. unfold at_, RSIIndicator.emaup.
  rewrite nth_ewm_mean by now rewrite up_direction_length, Close_length.
  destruct (t + 1 <? 14)%nat eqn:E.
  - apply Nat.ltb_lt in E.
    now replace (t <? 13)%nat with true by (symmetry; apply Nat.ltb_lt; lia).
  - apply Nat.ltb_ge in E.
    replace (t <? 13)%nat with false by (symmetry; apply Nat.ltb_ge; lia).
    rewrite alpha_14. apply nth_ewm_raw.
    + intros i Hi. rewrite up_direction_length, Close_length in Hi.
      now apply at_up_direction.
    + now rewrite up_direction_length, Close_length.
Qed.

Lemma at_emadn data t :
  (t < length data)%nat ->
  at_ (RSIIndicator.emadn (Close data) 14) t =
  if (t <? 13)%nat then NaN else Fin (avg_loss data t).
Proof.
  intros Ht. unfold at_, RSIIndicator.emadn.
  rewrite nth_ewm_mean by now rewrite down_direction_length, Close_length.
  destruct (t + 1 <? 14)%nat eqn:E.
  - apply Nat.ltb_lt in E.
    now replace (t <? 13)%nat with true by (symmetry; apply Nat.ltb_lt; lia).
  - apply Nat.ltb_ge in E.
    replace (t <? 13)%nat with false by (symmetry; apply Nat.ltb_ge; lia).
    rewrite alpha_14. apply nth_ewm_raw.
    + intros i Hi. rewrite down_direction_length, Close_length in Hi.
      now apply at_down_direction.
    + now rewrite down_direction_length, Close_length.
Qed.

(** The RSI cell, as [np.where] selects it. *)
Lemma at_rsi s w t :
  (t < length s)%nat ->
  at_ (RSIIndicator.rsi s w) t =
  if feqb (at_ (RSIIndicator.emadn s w) t) (Fin 0) then Fin 100
  else fsub (Fin 100)
         (fdiv (Fin 100)
            (fadd (Fin 1)
               (fdiv (at_ (RSIIndicator.emaup s w) t)
                     (at_ (RSIIndicator.emadn s w) t)))).
Proof.
  intros Ht. unfold at_, RSIIndicator.rsi, RSIIndicator.relative_strength.
  rewrite nth_np_where;
    [| unfold eq_scalar; rewrite length_map, emadn_length; lia
     | unfold eq_scalar; now rewrite length_map, broadcast_length, emadn_length
     | unfold eq_scalar;
       rewrite !length_map, map2_length, emaup_length, emadn_length; lia ].
  unfold eq_scalar.
  change false with (feqb NaN (Fin 0)).
  rewrite (map_nth (fun x => feqb x (Fin 0))).
  destruct (feqb _ _).
  - unfold broadcast. rewrite nth_indep with (d' := Fin 100)
      by (rewrite repeat_length; lia).
    apply nth_repeat.
  - rewrite nth_indep
      with (d' := (fun rs => fsub (Fin 100) (fdiv (Fin 100) (fadd (Fin 1) rs))) NaN)
      by (rewrite length_map, map2_length, emaup_length, emadn_length; lia).
    rewrite (map_nth (fun rs => fsub (Fin 100) (fdiv (Fin 100) (fadd (Fin 1) rs)))).
    now rewrite nth_map2 with (dl := NaN) (dm := NaN)
      by (rewrite ?emaup_length, ?emadn_length; lia).
Qed.

Lemma gain_nonneg data t : 0 <= gain data t.
Proof. destruct t; simpl; [lra | apply Rmax_r]. Qed.

Lemma loss_nonneg data t : 0 <= loss data t.
Proof. destruct t; simpl; [lra | apply Rmax_r]. Qed.

Lemma wilder_nonneg a x t :
  0 <= a <= 1 -> (forall i, 0 <= x i) -> 0 <= wilder a x t.
Proof.
  intros Ha Hx. induction t as [|t IH]; simpl; [apply Hx|].
  pose proof (Hx (S t)). nra.
Qed.

Lemma avg_gain_nonneg data t : 0 <= avg_gain data t.
Proof. apply wilder_nonneg; [lra | apply gain_nonneg]. Qed.

Lemma avg_loss_nonneg data t : 0 <= avg_loss data t.
Proof. apply wilder_nonneg; [lra | apply loss_nonneg]. Qed.

(** The RSI cell on finite prices. *)
Lemma at_RSI data t :
  (t < length data)%nat ->
  at_ (RSI data) t =
  if (t <? 13)%nat then NaN
  else if Reqb (avg_loss data t) 0 then Fin 100
  else Fin (100 - 100 / (1 + avg_gain data t / avg_loss data t)).
Proof.
  intros Ht. unfold RSI.
  rewrite at_rsi by now rewrite Close_length.
  rewrite at_emaup, at_emadn by assumption.
  destruct (t <? 13)%nat; [reflexivity|].
  pose proof (avg_gain_nonneg data t) as G.
  pose proof (avg_loss_nonneg data t) as L.
  simpl. destruct (Reqb (avg_loss data t) 0) eqn:E; [reflexivity|].
  apply Reqb_false_iff in E.
  assert (0 <= avg_gain data t / avg_loss data t).
  { apply Rmult_le_pos; [assumption|]. left. apply Rinv_0_lt_compat. lra. }
  now rcmp.
Qed.

Lemma RSI_range data u :
  at_ (RSI data) u = NaN \/
  exists v, at_ (RSI data) u = Fin v /\ 0 <= v <= 100.
Proof.
  destruct (Nat.lt_ge_cases u (length data)) as [Hu|Hu];
    [| left; now rewrite at_past_end by now rewrite RSI_length].
  rewrite at_RSI by assumption.
  destruct (u <? 13)%nat; [now left|]. right.
  destruct (Reqb (avg_loss data u) 0) eqn:E.
  - exists 100. split; [reflexivity | lra].
  - apply Reqb_false_iff in E. eexists. split; [reflexivity|].
    pose proof (avg_gain_nonneg data u) as G.
    pose proof (avg_loss_nonneg data u) as L.
    assert (Q : 0 <= avg_gain data u / avg_loss data u).
    { apply Rmult_le_pos; [assumption|]. left. apply Rinv_0_lt_compat. lra. }
    set (q := avg_gain data u / avg_loss data u) in *.
    assert (P : 0 < / (1 + q)) by (apply Rinv_0_lt_compat; lra).
    assert (I : / (1 + q) <= 1).
    { rewrite <- Rinv_1 at 2. apply Rinv_le_contravar; lra. }
    unfold Rdiv. lra.
Qed.

(** C5.  At every timestamp with at least 14 earlier periods the RSI is
    [100 - 100 / (1 + RS)] with
    [RS = avg_gain / avg_loss], the two averages being the smoothed
    (factor 1/14) averages of the one-period gains and losses of the
    close; it is 100 when the average loss is 0 and the average gain is
    positive; and a defined RSI lies between 0 and 100. *)
Theorem RSI_formula (data : list R) (t : nat) :
  (14 <= t < length data)%nat ->
  let g := avg_gain data t in
  let l := avg_loss data t in
  (* the one-period gains and losses *)
  (forall p, gain data (S p) = Rmax (nth (S p) data 0 - nth p data 0) 0) /\
  (forall p, loss data (S p) = Rmax (nth p data 0 - nth (S p) data 0) 0) /\
  (* their smoothed averages, as the code computes them *)
  (forall p, avg_gain data (S p) =
             13 / 14 * avg_gain data p + 1 / 14 * gain data (S p)) /\
  (forall p, avg_loss data (S p) =
             13 / 14 * avg_loss data p + 1 / 14 * loss data (S p)) /\
  at_ (RSIIndicator.emaup (Close data) 14) t = Fin g /\
  at_ (RSIIndicator.emadn (Close data) 14) t = Fin l /\
  (* the index *)
  (l <> 0 -> at_ (RSI data) t = Fin (100 - 100 / (1 + g / l))) /\
  (l = 0 -> 0 < g -> at_ (RSI data) t = Fin 100) /\
  (* the same formula in float arithmetic, where [g / 0] is +inf *)
  (l <> 0 \/ 0 < g ->
   at_ (RSI data) t =
   fsub (Fin 100) (fdiv (Fin 100) (fadd (Fin 1) (fdiv (Fin g) (Fin l))))) /\
  (* the range *)
  (forall u, at_ (RSI data) u = NaN \/
             exists v, at_ (RSI data) u = Fin v /\ 0 <= v <= 100).
Proof.
  intros [H14 Ht] g l.
  assert (F : (t <? 13)%nat = false) by (apply Nat.ltb_ge; lia).
  assert (FL : l <> 0 \/ 0 < g ->
     at_ (RSI data) t =
     fsub (Fin 100) (fdiv (Fin 100) (fadd (Fin 1) (fdiv (Fin g) (Fin l))))).
  { intros H. rewrite at_RSI, F by assumption. fold g l.
    pose proof (avg_gain_nonneg data t) as G. fold g in G.
    pose proof (avg_loss_nonneg data t) as L. fold l in L.
    destruct (Reqb l 0) eqn:E.
    - apply Reqb_iff in E. assert (0 < g) by (destruct H; [contradiction | assumption]).
      rewrite E. simpl. rewrite Reqb_refl. unfold inf_of_sign. rcmp. simpl.
      f_equal. lra.
    - apply Reqb_false_iff in E. simpl. rcmp.
      assert (0 <= g / l).
      { apply Rmult_le_pos; [assumption|]. left. apply Rinv_0_lt_compat. lra. }
      simpl. now rcmp. }
  split; [reflexivity|]. split; [reflexivity|].
  split; [|split; [|split; [|split; [|split; [|split; [|split]]]]]].
  - intros p. unfold avg_gain. simpl. lra.
  - intros p. unfold avg_loss. simpl. lra.
  - now rewrite at_emaup, F by assumption.
  - now rewrite at_emadn, F by assumption.
  - intros Hl. rewrite at_RSI, F by assumption. fold g l.
    now rewrite (proj2 (Reqb_false_iff l 0)).
  - intros Hl _. rewrite at_RSI, F by assumption. fold l.
    now rewrite (proj2 (Reqb_iff l 0)).
  - exact FL.
  - apply RSI_range.
Qed.

Lemma RSI_formula_witness :
  let data := [1; 2; 3; 4; 5; 6; 7; 8; 9; 10; 11; 12; 13; 14; 13] in
  at_ (RSI data) 14 =
  Fin (100 - 100 / (1 + avg_gain data 14 / avg_loss data 14)).
Proof.
  intros data.
  apply (RSI_formula data 14).
  - simpl. lia.
  - pose proof (avg_loss_nonneg data 13) as P.
    assert (E : avg_loss data 14 =
                13 / 14 * avg_loss data 13 + 1 / 14 * loss data 14)
      by (unfold avg_loss; simpl; lra).
    assert (L : loss data 14 = 1).
    { simpl. unfold Rmax. destruct (Rle_dec (14 - 13) 0); lra. }
    lra.
Defined.

(** C6.  Causality: the indicators at a timestamp of a series are the
    same when later price points are appended to the series. *)
Theorem causality (s ext : list R) (t : nat) :
  (t < length s)%nat ->
  at_ (RSI (s ++ ext)) t = at_ (RSI s) t /\
  at_ (SMA (s ++ ext)) t = at_ (SMA s) t /\
  at_ (Momentum_1D (s ++ ext)) t = at_ (Momentum_1D s) t /\
  at_ (Momentum_5D (s ++ ext)) t = at_ (Momentum_5D s) t /\
  at_ (STD (s ++ ext)) t = at_ (STD s) t /\
  at_ (ZScore (s ++ ext)) t = at_ (ZScore s) t.
Proof.
  intros Ht. repeat split; apply prefix_stable_at; auto.
  - apply RSI_prefix.
  - apply SMA_prefix.
  - apply Momentum_1D_prefix.
  - apply Momentum_5D_prefix.
  - apply STD_prefix.
  - apply ZScore_prefix.
Qed.

Lemma causality_witness :
  at_ (Momentum_5D ([100; 102; 101; 105; 104; 108] ++ [90; 95])) 5 =
  at_ (Momentum_5D [100; 102; 101; 105; 104; 108]) 5.
Proof.
  apply (causality [100; 102; 101; 105; 104; 108] [90; 95] 5).
  simpl. lia.
Defined.

(** ** Constant series *)

Lemma wilder_zero a (x : nat -> R) t :
  (forall i, (i <= t)%nat -> x i = 0) -> wilder a x t = 0.
Proof.
  induction t as [|t IH]; intros H; simpl.
  - now apply H.
  - rewrite IH by (intros; apply H; lia). rewrite (H (S t)) by lia. lra.
Qed.

Section Constant.

Variables (data : list R) (c : R).
Hypothesis const : forall i, (i < length data)%nat -> nth i data 0 = c.

Lemma gain_const t : (t < length data)%nat -> gain data t = 0.
Proof.
  intros Ht. destruct t as [|p]; [reflexivity|]. simpl.
  rewrite (const (S p)), (const p) by lia.
  unfold Rmax. destruct (Rle_dec (c - c) 0); lra.
Qed.

Lemma loss_const t : (t < length data)%nat -> loss data t = 0.
Proof.
  intros Ht. destruct t as [|p]; [reflexivity|]. simpl.
  rewrite (const (S p)), (const p) by lia.
  unfold Rmax. destruct (Rle_dec (c - c) 0); lra.
Qed.

Lemma avg_gain_const t : (t < length data)%nat -> avg_gain data t = 0.
Proof. intros Ht. apply wilder_zero. intros. apply gain_const. lia. Qed.

Lemma avg_loss_const t : (t < length data)%nat -> avg_loss data t = 0.
Proof. intros Ht. apply wilder_zero. intros. apply loss_const. lia. Qed.

(** With no loss at all the guard [emadn == 0] of the indicator holds
    and the RSI is 100 as soon as it is shown. *)
Lemma RSI_const t :
  (t < length data)%nat ->
  at_ (RSI data) t = if (t <? 13)%nat then NaN else Fin 100.
Proof.
  intros Ht. rewrite at_RSI, avg_loss_const by assumption.
  now rewrite Reqb_refl.
Qed.

Lemma Momentum_5D_const t :
  (t < length data)%nat ->
  at_ (Momentum_5D data) t = NaN \/ at_ (Momentum_5D data) t = Fin 0.
Proof.
  intros Ht. unfold Momentum_5D.
  rewrite at_pct_change by now rewrite Close_length.
  destruct (t <? 5)%nat eqn:E; [now left|].
  apply Nat.ltb_ge in E.
  rewrite !at_Close, !const by lia. simpl.
  destruct (Reqb c 0) eqn:C.
  - apply Reqb_iff in C. subst c. left. unfold inf_of_sign. now rcmp.
  - apply Reqb_false_iff in C. right. simpl. f_equal. field. assumption.
Qed.

Lemma Signal_const t : (t < length data)%nat -> nth t (Signal data) 0%Z = 0%Z.
Proof.
  intros Ht. rewrite Signal_at by assumption.
  destruct (Momentum_5D_const t Ht) as [-> | ->]; simpl; [reflexivity|].
  now rcmp.
Qed.

End Constant.

(** C10 (as the code has it).  On a series that is constant at every
    timestamp the average gain and the average loss are both 0; the RSI
    is missing during the first 13 timestamps and is 100 from the 14th
    on, since the indicator's guard on a zero average loss applies; and
    the momentum signal is Neutral at every timestamp. *)
Theorem constant_series_momentum (data : list R) (c : R) (t : nat) :
  (forall i, (i < length data)%nat -> nth i data 0 = c) ->
  (t < length data)%nat ->
  avg_gain data t = 0 /\
  avg_loss data t = 0 /\
  ((t < 13)%nat -> at_ (RSI data) t = NaN) /\
  ((13 <= t)%nat -> at_ (RSI data) t = Fin 100) /\
  nth t (Signal data) 0%Z = 0%Z /\
  signal_of_int (nth t (Signal data) 0%Z) = Neutral.
Proof.
  intros Hc Ht.
  split; [now apply (avg_gain_const data c)|].
  split; [now apply (avg_loss_const data c)|].
  split; [|split; [|split]].
  - intros H. rewrite (RSI_const data c) by assumption.
    now replace (t <? 13)%nat with true by (symmetry; apply Nat.ltb_lt; lia).
  - intros H. rewrite (RSI_const data c) by assumption.
    now replace (t <? 13)%nat with false by (symmetry; apply Nat.ltb_ge; lia).
  - now apply (Signal_const data c).
  - now rewrite (Signal_const data c).
Qed.

Lemma nth_repeat_const (c : R) n i :
  (i < length (repeat c n))%nat -> nth i (repeat c n) 0 = c.
Proof.
  intros H. rewrite nth_indep with (d' := c) by assumption. apply nth_repeat.
Qed.

Lemma constant_series_momentum_witness :
  at_ (RSI (repeat 50 25)) 20 = Fin 100 /\
  nth 20 (Signal (repeat 50 25)) 0%Z = 0%Z.
Proof.
  pose proof (constant_series_momentum (repeat 50 25) 50 20
                (nth_repeat_const 50 25) ltac:(simpl; lia)) as H.
  split.
  - apply H. lia.
  - apply H.
Defined.

(** On the constant series of 20 closes at 50 the RSI at the 14th
    timestamp is 100: it is not missing. *)
Lemma constant_series_rsi_defined :
  at_ (RSI (repeat 50 20)) 13 = Fin 100 /\
  ~ (forall t, (t < 20)%nat -> at_ (RSI (repeat 50 20)) t = NaN).
Proof.
  assert (E : at_ (RSI (repeat 50 20)) 13 = Fin 100).
  { rewrite (RSI_const (repeat 50 20) 50 (nth_repeat_const 50 20))
      by (simpl; lia).
    reflexivity. }
  split; [exact E|].
  intros H. specialize (H 13%nat ltac:(lia)). rewrite E in H. discriminate.
Qed.

(** ** Warm-up regions *)

Lemma RSI_defined data t :
  (13 <= t < length data)%nat -> exists v, at_ (RSI data) t = Fin v.
Proof.
  intros [H13 Ht]. rewrite at_RSI by assumption.
  replace (t <? 13)%nat with false by (symmetry; apply Nat.ltb_ge; lia).
  destruct (Reqb (avg_loss data t) 0); eexists; reflexivity.
Qed.

Lemma Momentum_5D_zero_price :
  at_ (Momentum_5D [0; 0; 0; 0; 0; 0]) 5 = NaN.
Proof.
  unfold Momentum_5D. rewrite at_pct_change by (simpl; lia).
  unfold at_. simpl. unfold inf_of_sign. now rcmp.
Qed.

(** C3 (as the code has it).  [Momentum_5D] is missing at the first 5
    timestamps and defined at every later one whose reference close,
    five periods earlier, is not zero; [SMA], [STD] and the Z-score are
    missing at the first 19 timestamps, [SMA] and [STD] are defined at
    every later one and so is the Z-score when [STD] is not zero; the
    RSI is missing at the first 13 timestamps and defined from the 14th
    (index 13) on. *)
Theorem warm_up_regions (data : list R) (t : nat) :
  (t < length data)%nat ->
  ((t < 5)%nat -> at_ (Momentum_5D data) t = NaN) /\
  ((5 <= t)%nat -> nth (t - 5) data 0 <> 0 ->
     exists v, at_ (Momentum_5D data) t = Fin v) /\
  ((t < 19)%nat ->
     at_ (SMA data) t = NaN /\ at_ (STD data) t = NaN /\
     at_ (ZScore data) t = NaN) /\
  ((19 <= t)%nat ->
     (exists m, at_ (SMA data) t = Fin m) /\
     (exists s, at_ (STD data) t = Fin s /\
        (s <> 0 -> exists z, at_ (ZScore data) t = Fin z))) /\
  ((t < 13)%nat -> at_ (RSI data) t = NaN) /\
  ((13 <= t)%nat -> exists v, at_ (RSI data) t = Fin v).
Proof.
  intros Ht. split; [|split; [|split; [|split; [|split]]]].
  - intros H. unfold Momentum_5D.
    rewrite at_pct_change by now rewrite Close_length.
    now replace (t <? 5)%nat with true by (symmetry; apply Nat.ltb_lt; lia).
  - intros H Hnz. unfold Momentum_5D.
    rewrite at_pct_change by now rewrite Close_length.
    replace (t <? 5)%nat with false by (symmetry; apply Nat.ltb_ge; lia).
    rewrite !at_Close by lia. simpl.
    rewrite (proj2 (Reqb_false_iff _ 0) Hnz). eexists. reflexivity.
  - intros H. rewrite at_ZScore, at_SMA, at_STD by assumption.
    replace (t <? 19)%nat with true by (symmetry; apply Nat.ltb_lt; lia).
    repeat split. now destruct (at_ (Close data) t).
  - intros H. rewrite at_ZScore, at_SMA, at_STD, at_Close by assumption.
    replace (t <? 19)%nat with false by (symmetry; apply Nat.ltb_ge; lia).
    split; [eexists; reflexivity|].
    eexists. split; [reflexivity|]. intros Hnz. simpl.
    rewrite (proj2 (Reqb_false_iff _ 0) Hnz). eexists. reflexivity.
  - intros H. rewrite at_RSI by assumption.
    now replace (t <? 13)%nat with true by (symmetry; apply Nat.ltb_lt; lia).
  - intros H. apply RSI_defined. lia.
Qed.

Lemma warm_up_regions_witness :
  exists v,
    at_ (RSI [100; 102; 101; 105; 104; 108; 107; 110; 109; 111; 112; 110;
              113; 115]) 13 = Fin v.
Proof.
  apply (warm_up_regions
           [100; 102; 101; 105; 104; 108; 107; 110; 109; 111; 112; 110;
            113; 115] 13).
  - simpl. lia.
  - lia.
Defined.

(** On a series of 14 closes the RSI at the 14th timestamp (index 13)
    is defined, so it is not missing throughout the first 14; and on a
    series of zero prices [Momentum_5D] is missing at index 5. *)
Lemma rsi_defined_at_index_13 :
  let data := [100; 102; 101; 105; 104; 108; 107; 110; 109; 111; 112; 110;
               113; 115] in
  (13 < length data)%nat /\
  at_ (RSI data) 13 <> NaN /\
  ~ (forall t, (t < 14)%nat -> at_ (RSI data) t = NaN) /\
  at_ (Momentum_5D [0; 0; 0; 0; 0; 0]) 5 = NaN.
Proof.
  intros data.
  assert (D : at_ (RSI data) 13 <> NaN).
  { destruct (RSI_defined data 13) as [v E]; [simpl; lia|].
    rewrite E. discriminate. }
  split; [simpl; lia|]. split; [exact D|]. split.
  - intros H. apply D. apply H. lia.
  - exact Momentum_5D_zero_price.
Qed.

(** * Further properties of the notebook *)

(** ** The data collection cell *)

(** X1.  The data collection cell completes without raising exactly
    when both calls to the provider return and the frame returned is not
    empty; [data] is then that frame, and the cell prints its first five
    rows and nothing else. *)
Theorem fetch_cell_completes
  (Row Ticker : Type) (yf_Ticker : string -> exception + Ticker)
  (history : Ticker -> string -> string -> exception + list Row)
  (show : list Row -> string) (data : option (list Row)) :
  raised Row (fetch_cell Row Ticker yf_Ticker history show data) = None <->
  exists stock frame,
    yf_Ticker "AAPL"%string = inr stock /\
    history stock "1y"%string "1d"%string = inr frame /\
    frame <> [] /\
    fetch_cell Row Ticker yf_Ticker history show data =
    Outcome Row [show (firstn 5 frame)] None (Some frame).
Proof.
  unfold fetch_cell, handler, head.
  destruct (yf_Ticker "AAPL"%string) as [e|stock].
  - split; [discriminate|]. intros [st [fr [H _]]]. discriminate.
  - destruct (history stock "1y"%string "1d"%string) as [e|d] eqn:Hh.
    + split; [discriminate|]. intros [st [fr [H1 [H2 _]]]].
      injection H1 as <-. rewrite Hh in H2. discriminate.
    + destruct d as [|r d]; simpl.
      * split; [discriminate|]. intros [st [fr [H1 [H2 [NE _]]]]].
        injection H1 as <-. rewrite Hh in H2. injection H2 as <-.
        now contradiction NE.
      * split; [|reflexivity]. intros _. exists stock, (r :: d).
        repeat split; auto. discriminate.
Qed.

(** X2.  When a call to the provider raises, the cell raises that same
    exception and leaves [data] as it was; it prints the one line
    [Error fetching data: ] followed by the message when the exception is
    an [Exception], and nothing when it is not (a [KeyboardInterrupt],
    a [SystemExit]).  When the provider returns an empty frame, the cell
    prints that line and raises a [ValueError] with the message
    [No data returned from Yahoo Finance], and [data] is left bound to the
    empty frame.  The cell raises in no other case. *)
Theorem fetch_cell_raises
  (Row Ticker : Type) (yf_Ticker : string -> exception + Ticker)
  (history : Ticker -> string -> string -> exception + list Row)
  (show : list Row -> string) (data : option (list Row)) (e : exception) :
  let run := fetch_cell Row Ticker yf_Ticker history show data in
  raised Row run = Some e <->
  ((yf_Ticker "AAPL"%string = inl e \/
    exists stock, yf_Ticker "AAPL"%string = inr stock /\
                  history stock "1y"%string "1d"%string = inl e) /\
   run = Outcome Row
           (if is_Exception e
            then [String.append "Error fetching data: " (str e)]
            else [])
           (Some e) data) \/
  ((exists stock, yf_Ticker "AAPL"%string = inr stock /\
                  history stock "1y"%string "1d"%string = inr []) /\
   e = Raise true "ValueError" "No data returned from Yahoo Finance" /\
   run = Outcome Row
           ["Error fetching data: No data returned from Yahoo Finance"%string]
           (Some e) (Some [])).
Proof.
  cbv zeta. unfold fetch_cell, handler.
  destruct (yf_Ticker "AAPL"%string) as [e0|stock].
  - simpl. split.
    + intros H. injection H as <-. left. split; [now left | reflexivity].
    + intros [[[H | [st [H _]]] _] | [[st [H _]] _]]; try discriminate.
      now injection H as <-.
  - destruct (history stock "1y"%string "1d"%string) as [e0|d] eqn:Hh.
    + simpl. split.
      * intros H. injection H as <-. left. split; [| reflexivity].
        right. exists stock. now split.
      * intros [[[H | [st [H1 H2]]] _] | [[st [H1 H2]] _]]; try discriminate.
        -- injection H1 as <-. rewrite Hh in H2. now injection H2 as <-.
        -- injection H1 as <-. rewrite Hh in H2. discriminate.
    + destruct d as [|r d]; simpl.
      * split.
        -- intros H. injection H as <-. right.
           split; [exists stock; now split|]. now split.
        -- intros [[[H | [st [H1 H2]]] _] | [_ [-> _]]]; try discriminate.
           ++ injection H1 as <-. rewrite Hh in H2. discriminate.
           ++ reflexivity.
      * split; [discriminate|].
        intros [[[H | [st [H1 H2]]] _] | [[st [H1 H2]] _]]; try discriminate;
          injection H1 as <-; rewrite Hh in H2; discriminate.
Qed.

(** ** Alignment of the columns *)

Lemma Signal_length data : length (Signal data) = length data.
Proof.
  unfold Signal, momentum_signal.
  pose proof (RSI_length data) as R. pose proof (Momentum_5D_length data) as M.
  assert (L1 : length (mask_and (lt_scalar (Momentum_5D data) (Fin 0))
                 (gt_scalar (RSI data) (Fin 70))) = length data).
  { unfold mask_and, lt_scalar, gt_scalar.
    rewrite map2_length, !length_map. lia. }
  assert (L2 : length (mask_and (mask_and (gt_scalar (Momentum_5D data) (Fin 0))
                  (gt_scalar (RSI data) (Fin 30))) (lt_scalar (RSI data) (Fin 70)))
               = length data).
  { unfold mask_and, lt_scalar, gt_scalar.
    rewrite !map2_length, !length_map. lia. }
  rewrite np_where_length; [exact L2 | now rewrite broadcast_length, L2 |].
  rewrite np_where_length; rewrite ?broadcast_length; lia.
Qed.

Lemma band_length (op : fval -> fval -> fval) data :
  length (map2 op (SMA data) (map (fun s => fmul s (Fin 1.5)) (STD data))) =
  length data.
Proof. rewrite map2_length, length_map, SMA_length, STD_length. lia. Qed.

(** X3.  Every column the notebook adds to the frame has one cell per
    row of the frame, so each assignment to [data[...]] is aligned with
    the index, and each mask has one entry per row. *)
Theorem columns_aligned (data : list R) :
  let n := length data in
  length (Momentum_1D data) = n /\ length (Momentum_5D data) = n /\
  length (RSI data) = n /\ length (Signal data) = n /\
  length (SMA data) = n /\ length (STD data) = n /\
  length (Upper data) = n /\ length (Lower data) = n /\
  length (ZScore data) = n /\
  length (buy_mask (ZScore data)) = n /\
  length (sell_mask (ZScore data)) = n.
Proof.
  cbv zeta. repeat split.
  - unfold Momentum_1D. now rewrite pct_change_length, Close_length.
  - apply Momentum_5D_length.
  - apply RSI_length.
  - apply Signal_length.
  - apply SMA_length.
  - apply STD_length.
  - apply band_length.
  - apply band_length.
  - apply ZScore_length.
  - unfold buy_mask, lt_scalar. now rewrite length_map, ZScore_length.
  - unfold sell_mask, gt_scalar. now rewrite length_map, ZScore_length.
Qed.

(** ** Marker traces *)

Lemma in_loc_seq (m : list bool) a i :
  In i (map fst (filter snd (combine (seq a (length m)) m))) ->
  (a <= i < a + length m)%nat.
Proof.
  intros H. apply in_map_iff in H. destruct H as [[j b] [E H]].
  simpl in E. subst j. apply filter_In in H. destruct H as [H _].
  now apply in_combine_seq in H.
Qed.

Lemma loc_eq_map_offset {A} (d : A) (mask : list bool) :
  forall (col : list A) a, length col = length mask ->
  loc col mask =
  map (fun i => nth (i - a) col d)
      (map fst (filter snd (combine (seq a (length mask)) mask))).
Proof.
  unfold loc. induction mask as [|b m IH]; intros [|x c] a E;
    simpl in *; try discriminate; auto.
  assert (R : map fst (filter snd (combine c m)) =
              map (fun i => nth (i - a) (x :: c) d)
                (map fst (filter snd (combine (seq (S a) (length m)) m)))).
  { rewrite (IH c (S a)) by lia. apply map_ext_in. intros i Hi.
    apply in_loc_seq in Hi.
    replace (i - a)%nat with (S (i - S a)) by lia. reflexivity. }
  destruct b; simpl.
  - rewrite Nat.sub_diag. simpl. now rewrite R.
  - exact R.
Qed.

(** The column cells a mask selects are the cells at the positions it
    selects. *)
Lemma loc_eq_map {A} (d : A) (col : list A) (mask : list bool) :
  length col = length mask ->
  loc col mask = map (fun i => nth i col d) (loc_index mask).
Proof.
  intros E. rewrite (loc_eq_map_offset d mask col 0%nat E).
  unfold loc_index. apply map_ext. intros i. now rewrite Nat.sub_0_r.
Qed.

Lemma loc_seq_sorted (m : list bool) a :
  StronglySorted lt (map fst (filter snd (combine (seq a (length m)) m))).
Proof.
  revert a. induction m as [|b m IH]; intros a; simpl; [constructor|].
  destruct b; simpl; [| apply IH].
  constructor; [apply IH|].
  apply Forall_forall. intros i Hi. apply in_loc_seq in Hi. lia.
Qed.

Lemma loc_index_sorted mask : StronglySorted lt (loc_index mask).
Proof. apply loc_seq_sorted. Qed.

Lemma nth_eq_int s v t :
  v <> 0%Z -> nth t (eq_int s v) false = (nth t s 0 =? v)%Z.
Proof.
  intros Hv. unfold eq_int.
  assert (E : (0 =? v)%Z = false) by (apply Z.eqb_neq; congruence).
  rewrite <- E at 1. apply (map_nth (fun z => (z =? v)%Z)).
Qed.

Lemma in_momentum_buy_x data t :
  In t (momentum_buy_x data) <-> nth t (Signal data) 0%Z = 1%Z.
Proof.
  unfold momentum_buy_x. rewrite in_loc_index, nth_eq_int by discriminate.
  apply Z.eqb_eq.
Qed.

Lemma in_momentum_sell_x data t :
  In t (momentum_sell_x data) <-> nth t (Signal data) 0%Z = (-1)%Z.
Proof.
  unfold momentum_sell_x. rewrite in_loc_index, nth_eq_int by discriminate.
  apply Z.eqb_eq.
Qed.

Lemma Signal_past_end data t :
  (length data <= t)%nat -> nth t (Signal data) 0%Z = 0%Z.
Proof. intros H. apply nth_overflow. now rewrite Signal_length. Qed.

(** X4.  The Buy and Sell traces of the momentum chart: each list of
    marker positions is strictly increasing and within the frame, each
    marker is drawn at the close of its own timestamp, a timestamp is a
    Buy marker exactly when its [Signal] is 1 and a Sell marker exactly
    when it is -1, and no timestamp carries both. *)
Theorem momentum_traces (data : list R) :
  StronglySorted lt (momentum_buy_x data) /\
  StronglySorted lt (momentum_sell_x data) /\
  momentum_buy_y data =
    map (fun t => Fin (nth t data 0)) (momentum_buy_x data) /\
  momentum_sell_y data =
    map (fun t => Fin (nth t data 0)) (momentum_sell_x data) /\
  (forall t, In t (momentum_buy_x data) <->
             (t < length data)%nat /\ nth t (Signal data) 0%Z = 1%Z) /\
  (forall t, In t (momentum_sell_x data) <->
             (t < length data)%nat /\ nth t (Signal data) 0%Z = (-1)%Z) /\
  (forall t, ~ (In t (momentum_buy_x data) /\ In t (momentum_sell_x data))).
Proof.
  assert (Y : forall v, v <> 0%Z ->
     loc (Close data) (eq_int (Signal data) v) =
     map (fun t => Fin (nth t data 0)) (loc_index (eq_int (Signal data) v))).
  { intros v Hv. rewrite (loc_eq_map NaN)
      by (unfold eq_int; now rewrite length_map, Signal_length, Close_length).
    apply map_ext_in. intros t Ht. apply in_loc_index in Ht.
    rewrite nth_eq_int in Ht by assumption. apply Z.eqb_eq in Ht.
    destruct (Nat.lt_ge_cases t (length data)) as [H|H].
    - now apply at_Close.
    - rewrite Signal_past_end in Ht by assumption. congruence. }
  assert (B : forall t v, v <> 0%Z -> nth t (Signal data) 0%Z = v ->
                          (t < length data)%nat).
  { intros t v Hv E. destruct (Nat.lt_ge_cases t (length data)); auto.
    rewrite Signal_past_end in E by assumption. congruence. }
  split; [apply loc_index_sorted|]. split; [apply loc_index_sorted|].
  split; [apply Y; discriminate|]. split; [apply Y; discriminate|].
  split; [|split].
  - intros t. rewrite in_momentum_buy_x. split; [|tauto].
    intros E. split; auto. apply (B t 1%Z); auto. discriminate.
  - intros t. rewrite in_momentum_sell_x. split; [|tauto].
    intros E. split; auto. apply (B t (-1)%Z); auto. discriminate.
  - intros t [H1 H2]. apply in_momentum_buy_x in H1.
    apply in_momentum_sell_x in H2. congruence.
Qed.

(** X5.  The Buy and Sell traces of the mean-reversion chart: each list
    of marker positions is strictly increasing and within the frame, and
    each marker is drawn at the close of its own timestamp. *)
Theorem reversion_traces (data : list R) :
  StronglySorted lt (buy_markers data) /\
  StronglySorted lt (sell_markers data) /\
  reversion_buy_y data = map (fun t => Fin (nth t data 0)) (buy_markers data) /\
  reversion_sell_y data = map (fun t => Fin (nth t data 0)) (sell_markers data) /\
  (forall t, In t (buy_markers data) \/ In t (sell_markers data) ->
             (t < length data)%nat).
Proof.
  assert (B : forall t, In t (buy_markers data) \/ In t (sell_markers data) ->
                        (t < length data)%nat).
  { intros t H. destruct (Nat.lt_ge_cases t (length data)) as [L|L]; auto.
    exfalso. rewrite <- !marked_iff, buy_marked, sell_marked in H.
    rewrite at_past_end in H by now rewrite ZScore_length.
    simpl in H. destruct H; discriminate. }
  split; [apply loc_index_sorted|]. split; [apply loc_index_sorted|].
  split; [|split; [|exact B]].
  - unfold reversion_buy_y. rewrite (loc_eq_map NaN)
      by (unfold buy_mask, lt_scalar;
          now rewrite length_map, ZScore_length, Close_length).
    apply map_ext_in. intros t Ht. apply at_Close. apply B. now left.
  - unfold reversion_sell_y. rewrite (loc_eq_map NaN)
      by (unfold sell_mask, gt_scalar;
          now rewrite length_map, ZScore_length, Close_length).
    apply map_ext_in. intros t Ht. apply at_Close. apply B. now right.
Qed.

(** ** No marker during the warm-up *)

(** Decide the [Rmax] of the goal by linear arithmetic. *)
Ltac rmax :=
  unfold Rmax;
  repeat match goal with
  | |- context [Rle_dec ?a ?b] => destruct (Rle_dec a b); try lra
  end.

(** X6.  The momentum chart has no marker, Buy or Sell, at any of the
    first 13 timestamps: both conditions read the RSI, which is missing
    there.  (A marker at index 13 is possible: the witness has one.) *)
Theorem momentum_markers_after_warm_up (data : list R) (t : nat) :
  In t (momentum_buy_x data) \/ In t (momentum_sell_x data) ->
  (13 <= t < length data)%nat.
Proof.
  intros H.
  assert (S : nth t (Signal data) 0%Z <> 0%Z).
  { destruct H as [H|H];
      [apply in_momentum_buy_x in H | apply in_momentum_sell_x in H];
      rewrite H; discriminate. }
  destruct (Nat.lt_ge_cases t (length data)) as [L|L];
    [| now rewrite Signal_past_end in S].
  split; auto. destruct (Nat.lt_ge_cases t 13) as [W|W]; auto.
  exfalso. apply S. rewrite Signal_at, at_RSI by assumption.
  replace (t <? 13)%nat with true by (symmetry; apply Nat.ltb_lt; lia).
  simpl. now rewrite !andb_false_r.
Qed.

Lemma momentum_markers_after_warm_up_witness :
  (13 <= 13 < length (repeat 10 12 ++ [9; 11]))%nat.
Proof.
  apply (momentum_markers_after_warm_up (repeat 10 12 ++ [9; 11]) 13).
  left. apply in_momentum_buy_x.
  set (data := repeat 10 12 ++ [9; 11]).
  assert (G : avg_gain data 13 = 1 / 7).
  { unfold avg_gain, data. simpl. rmax. }
  assert (L : avg_loss data 13 = 13 / 196).
  { unfold avg_loss, data. simpl. rmax. }
  rewrite Signal_at by (simpl; lia).
  rewrite at_RSI by (simpl; lia). rewrite G, L.
  unfold Momentum_5D. rewrite at_pct_change by (simpl; lia).
  unfold at_, data. simpl. rcmp. simpl. rcmp. reflexivity.
Defined.

(** X7.  The mean-reversion chart has no marker at any of the first 19
    timestamps: the Z-score is missing there.  (A marker at index 19 is
    possible: the witness has one.) *)
Theorem reversion_markers_after_warm_up (data : list R) (t : nat) :
  In t (buy_markers data) \/ In t (sell_markers data) ->
  (19 <= t < length data)%nat.
Proof.
  intros H. rewrite <- !marked_iff, buy_marked, sell_marked in H.
  destruct (Nat.lt_ge_cases t (length data)) as [L|L].
  - split; auto. destruct (Nat.lt_ge_cases t 19) as [W|W]; auto.
    exfalso. rewrite at_ZScore, at_STD in H by assumption.
    replace (t <? 19)%nat with true in H by (symmetry; apply Nat.ltb_lt; lia).
    destruct (fsub (at_ (Close data) t) (at_ (SMA data) t));
      simpl in H; destruct H; discriminate.
  - exfalso. rewrite at_past_end in H by now rewrite ZScore_length.
    simpl in H. destruct H; discriminate.
Qed.

Lemma reversion_markers_after_warm_up_witness :
  (19 <= 19 < length (repeat 50 19 ++ [70]))%nat.
Proof.
  apply (reversion_markers_after_warm_up (repeat 50 19 ++ [70]) 19).
  right. apply marked_iff. rewrite sell_marked.
  set (data := repeat 50 19 ++ [70]).
  assert (S20 : sum_sq_dev (window_at 20 data 19) / 19 = 20).
  { unfold sum_sq_dev, Rmean. simpl. lra. }
  assert (M : Rmean (window_at 20 data 19) = 51).
  { unfold Rmean. simpl. lra. }
  rewrite at_ZScore, at_STD, at_SMA, at_Close by (simpl; lia).
  simpl Nat.ltb. cbv iota. rewrite S20, M.
  assert (P : 0 < sqrt 20) by (apply sqrt_lt_R0; lra).
  assert (Q : sqrt 20 < 5).
  { replace 5 with (sqrt 25).
    - apply sqrt_lt_1; lra.
    - replace 25 with (5 * 5) by lra. apply sqrt_square. lra. }
  replace (nth 19 data 0) with 70 by reflexivity.
  simpl. rcmp. simpl. apply Rltb_iff.
  apply Rmult_lt_reg_r with (sqrt 20); [assumption|].
  unfold Rdiv. rewrite Rmult_assoc, Rinv_l by lra. lra.
Defined.

(** ** Momentum *)

Lemma at_Momentum data n t :
  (n <= t < length data)%nat -> nth (t - n) data 0 <> 0 ->
  at_ (pct_change n (Close data)) t =
  Fin (nth t data 0 / nth (t - n) data 0 - 1).
Proof.
  intros [Hn Ht] Hnz.
  rewrite at_pct_change by now rewrite Close_length.
  replace (t <? n)%nat with false by (symmetry; apply Nat.ltb_ge; lia).
  rewrite !at_Close by lia. simpl.
  now rewrite (proj2 (Reqb_false_iff _ 0) Hnz).
Qed.

(** X8.  On positive prices the sign of the 5-day momentum is the
    direction of the close against the close five periods earlier: it is
    above 0 exactly when the close is higher, below 0 exactly when it is
    lower.  The same holds for the 1-day momentum and the previous
    close. *)
Theorem momentum_sign (data : list R) (t : nat) :
  (forall i, (i < length data)%nat -> 0 < nth i data 0) ->
  (t < length data)%nat ->
  ((5 <= t)%nat ->
     (fLt (Fin 0) (at_ (Momentum_5D data) t) <->
        nth (t - 5) data 0 < nth t data 0) /\
     (fLt (at_ (Momentum_5D data) t) (Fin 0) <->
        nth t data 0 < nth (t - 5) data 0)) /\
  ((1 <= t)%nat ->
     (fLt (Fin 0) (at_ (Momentum_1D data) t) <->
        nth (t - 1) data 0 < nth t data 0) /\
     (fLt (at_ (Momentum_1D data) t) (Fin 0) <->
        nth t data 0 < nth (t - 1) data 0)).
Proof.
  intros Hpos Ht.
  assert (K : forall n, (n <= t)%nat ->
     (fLt (Fin 0) (at_ (pct_change n (Close data)) t) <->
        nth (t - n) data 0 < nth t data 0) /\
     (fLt (at_ (pct_change n (Close data)) t) (Fin 0) <->
        nth t data 0 < nth (t - n) data 0)).
  { intros n Hn. pose proof (Hpos (t - n)%nat ltac:(lia)) as P.
    rewrite at_Momentum by (try lia; lra).
    unfold fLt. rewrite !flt_Fin.
    set (c := nth t data 0). set (r := nth (t - n)%nat data 0) in *.
    assert (E : c = c / r * r) by (field; lra).
    set (q := c / r) in *. split; split; intros; nra. }
  split; intros H; apply K; assumption.
Qed.

Lemma momentum_sign_witness :
  fLt (Fin 0) (at_ (Momentum_5D [100; 102; 101; 105; 104; 108]) 5) <->
  nth (5 - 5) [100; 102; 101; 105; 104; 108] 0
  < nth 5 [100; 102; 101; 105; 104; 108] 0.
Proof.
  apply (momentum_sign [100; 102; 101; 105; 104; 108] 5).
  - intros i Hi. simpl in Hi.
    do 6 (destruct i as [|i]; [simpl; lra|]). lia.
  - simpl. lia.
  - lia.
Defined.

(** ** Bands *)

Lemma STD_nonneg data t s : at_ (STD data) t = Fin s -> 0 <= s.
Proof.
  intros H. destruct (STD_defined_in_range data t s H) as [H19 Ht].
  rewrite at_STD in H by assumption.
  replace (t <? 19)%nat with false in H by (symmetry; apply Nat.ltb_ge; lia).
  injection H as <-. apply sqrt_pos.
Qed.

(** A Z-score below a negative threshold, or above a positive one, tells
    on which side of the moving average the close is, whatever the
    deviation. *)
Lemma ZScore_side (c m s : R) :
  0 <= s ->
  (flt (fdiv (Fin (c + - m)) (Fin s)) (Fin (-1.5)) = true -> c < m) /\
  (flt (Fin 1.5) (fdiv (Fin (c + - m)) (Fin s)) = true -> m < c).
Proof.
  intros Hs. simpl. destruct (Reqb s 0) eqn:Z.
  - unfold inf_of_sign.
    destruct (Rltb 0 (c + - m)) eqn:P; simpl.
    + apply Rltb_iff in P. split; [discriminate | intros _; lra].
    + destruct (Rltb (c + - m) 0) eqn:N; simpl.
      * apply Rltb_iff in N. split; [intros _; lra | discriminate].
      * split; discriminate.
  - apply Reqb_false_iff in Z. simpl. rewrite !Rltb_iff.
    assert (E : c + - m = (c + - m) / s * s) by (field; lra).
    set (q := (c + - m) / s) in *. split; intros H; nra.
Qed.

(** X10.  Both bands are missing at the first 19 timestamps; from the
    20th on the deviation is not negative and the bands enclose the
    moving average, [Lower <= SMA <= Upper].  A Buy marker of the
    mean-reversion chart is always at a close below the moving average,
    and a Sell marker at a close above it. *)
Theorem bands_and_marker_sides (data : list R) (t : nat) :
  (t < length data)%nat ->
  ((t < 19)%nat -> at_ (Upper data) t = NaN /\ at_ (Lower data) t = NaN) /\
  ((19 <= t)%nat ->
     exists m s u l : R,
       at_ (SMA data) t = Fin m /\ at_ (STD data) t = Fin s /\
       at_ (Upper data) t = Fin u /\ at_ (Lower data) t = Fin l /\
       0 <= s /\ l <= m <= u) /\
  (In t (buy_markers data) ->
     fLt (at_ (Close data) t) (at_ (SMA data) t)) /\
  (In t (sell_markers data) ->
     fLt (at_ (SMA data) t) (at_ (Close data) t)).
Proof.
  intros Ht.
  assert (M : forall b : bool,
    (if b then flt (at_ (ZScore data) t) (Fin (-1.5))
     else flt (Fin 1.5) (at_ (ZScore data) t)) = true ->
    if b then fLt (at_ (Close data) t) (at_ (SMA data) t)
    else fLt (at_ (SMA data) t) (at_ (Close data) t)).
  { intros b H. rewrite at_ZScore in H by assumption.
    pose proof (at_STD data t Ht) as Hs. pose proof (at_SMA data t Ht) as Hm.
    destruct (t <? 19)%nat.
    - rewrite Hs in H.
      destruct (fsub (at_ (Close data) t) (at_ (SMA data) t)), b;
        discriminate.
    - pose proof (STD_nonneg data t _ Hs) as P.
      rewrite Hs, Hm, at_Close in H by assumption.
      rewrite Hm, at_Close by assumption. unfold fLt. simpl flt.
      destruct (ZScore_side (nth t data 0) (Rmean (window_at 20 data t)) _ P)
        as [B S].
      destruct b; apply Rltb_iff; [apply B | apply S]; exact H. }
  split; [|split; [|split]].
  - intros H. rewrite at_Upper, at_Lower, at_SMA, at_STD by assumption.
    now replace (t <? 19)%nat with true by (symmetry; apply Nat.ltb_lt; lia).
  - intros H19.
    assert (F : (t <? 19)%nat = false) by (apply Nat.ltb_ge; lia).
    pose proof (at_SMA data t Ht) as Hm. rewrite F in Hm.
    pose proof (at_STD data t Ht) as Hs. rewrite F in Hs.
    pose proof (STD_nonneg data t _ Hs) as P.
    do 4 eexists.
    split; [exact Hm|]. split; [exact Hs|].
    split; [rewrite at_Upper, Hm, Hs by assumption; reflexivity|].
    split; [rewrite at_Lower, Hm, Hs by assumption; reflexivity|].
    split; [exact P|]. lra.
  - intros H. apply marked_iff in H. rewrite buy_marked in H.
    exact (M true H).
  - intros H. apply marked_iff in H. rewrite sell_marked in H.
    exact (M false H).
Qed.

Lemma bands_and_marker_sides_witness :
  exists m s u l : R,
    at_ (SMA (repeat 50 19 ++ [70])) 19 = Fin m /\
    at_ (STD (repeat 50 19 ++ [70])) 19 = Fin s /\
    at_ (Upper (repeat 50 19 ++ [70])) 19 = Fin u /\
    at_ (Lower (repeat 50 19 ++ [70])) 19 = Fin l /\
    0 <= s /\ l <= m <= u.
Proof.
  apply (bands_and_marker_sides (repeat 50 19 ++ [70]) 19).
  - simpl. lia.
  - lia.
Defined.

(** ** Monotone series *)

Lemma wilder_zero_inv a (x : nat -> R) t :
  0 < a < 1 -> (forall i, 0 <= x i) -> wilder a x t = 0 ->
  forall i, (i <= t)%nat -> x i = 0.
Proof.
  intros Ha Hx. induction t as [|t IH]; simpl; intros H i Hi.
  - now replace i with 0%nat by lia.
  - pose proof (wilder_nonneg a x t ltac:(lra) Hx) as W.
    pose proof (Hx (S t)) as X.
    assert (W0 : wilder a x t = 0) by nra.
    assert (X0 : x (S t) = 0) by nra.
    destruct (Nat.eq_dec i (S t)) as [->|N]; auto.
    apply IH; auto. lia.
Qed.

Lemma loss_zero_step data p :
  loss data (S p) = 0 -> nth p data 0 <= nth (S p) data 0.
Proof. simpl. unfold Rmax. destruct (Rle_dec _ _); lra. Qed.

Lemma loss_zero_of_step data p :
  nth p data 0 <= nth (S p) data 0 -> loss data (S p) = 0.
Proof. simpl. unfold Rmax. destruct (Rle_dec _ _); lra. Qed.

Lemma gain_zero_of_step data p :
  nth (S p) data 0 <= nth p data 0 -> gain data (S p) = 0.
Proof. simpl. unfold Rmax. destruct (Rle_dec _ _); lra. Qed.

(** Five consecutive steps that do not fall. *)
Lemma five_steps_up data t :
  (5 <= t)%nat ->
  (forall p, (t - 5 <= p < t)%nat -> nth p data 0 <= nth (S p) data 0) ->
  nth (t - 5) data 0 <= nth t data 0.
Proof.
  intros H5 H.
  pose proof (H (t - 5)%nat ltac:(lia)) as A1.
  pose proof (H (t - 4)%nat ltac:(lia)) as A2.
  pose proof (H (t - 3)%nat ltac:(lia)) as A3.
  pose proof (H (t - 2)%nat ltac:(lia)) as A4.
  pose proof (H (t - 1)%nat ltac:(lia)) as A5.
  replace (S (t - 5)) with (t - 4)%nat in A1 by lia.
  replace (S (t - 4)) with (t - 3)%nat in A2 by lia.
  replace (S (t - 3)) with (t - 2)%nat in A3 by lia.
  replace (S (t - 2)) with (t - 1)%nat in A4 by lia.
  replace (S (t - 1)) with t in A5 by lia.
  lra.
Qed.

Lemma five_steps_down data t :
  (5 <= t)%nat ->
  (forall p, (t - 5 <= p < t)%nat -> nth (S p) data 0 <= nth p data 0) ->
  nth t data 0 <= nth (t - 5) data 0.
Proof.
  intros H5 H.
  pose proof (H (t - 5)%nat ltac:(lia)) as A1.
  pose proof (H (t - 4)%nat ltac:(lia)) as A2.
  pose proof (H (t - 3)%nat ltac:(lia)) as A3.
  pose proof (H (t - 2)%nat ltac:(lia)) as A4.
  pose proof (H (t - 1)%nat ltac:(lia)) as A5.
  replace (S (t - 5)) with (t - 4)%nat in A1 by lia.
  replace (S (t - 4)) with (t - 3)%nat in A2 by lia.
  replace (S (t - 3)) with (t - 2)%nat in A3 by lia.
  replace (S (t - 2)) with (t - 1)%nat in A4 by lia.
  replace (S (t - 1)) with t in A5 by lia.
  lra.
Qed.

(** The sign tests of the 5-day momentum on positive prices. *)
Lemma Momentum_5D_tests data t :
  (forall i, (i < length data)%nat -> 0 < nth i data 0) ->
  (t < length data)%nat ->
  (flt (Fin 0) (at_ (Momentum_5D data) t) = true ->
     (5 <= t)%nat /\ nth (t - 5) data 0 < nth t data 0) /\
  (flt (at_ (Momentum_5D data) t) (Fin 0) = true ->
     (5 <= t)%nat /\ nth t data 0 < nth (t - 5) data 0).
Proof.
  intros Hpos Ht.
  destruct (Nat.lt_ge_cases t 5) as [W|W].
  - unfold Momentum_5D. rewrite at_pct_change by now rewrite Close_length.
    replace (t <? 5)%nat with true by (symmetry; apply Nat.ltb_lt; lia).
    split; discriminate.
  - pose proof (Hpos (t - 5)%nat ltac:(lia)) as P.
    unfold Momentum_5D. rewrite at_Momentum by (try lia; lra).
    rewrite !flt_Fin.
    set (c := nth t data 0). set (r := nth (t - 5)%nat data 0) in *.
    assert (E : c = c / r * r) by (field; lra).
    set (q := c / r) in *. split; intros; split; auto; nra.
Qed.

(** X14.  On a series of positive prices that never falls, and on one
    that never rises, the momentum strategy gives no signal at all: the
    [Signal] column is 0 at every timestamp and the momentum chart has
    no marker.  (When the price never falls the RSI is 100 as soon as it
    is shown, which rules out a Buy, and the momentum is never
    negative, which rules out a Sell.) *)
Theorem monotone_series_no_signal (data : list R) :
  (forall i, (i < length data)%nat -> 0 < nth i data 0) ->
  (forall p, (S p < length data)%nat -> nth p data 0 <= nth (S p) data 0) \/
  (forall p, (S p < length data)%nat -> nth (S p) data 0 <= nth p data 0) ->
  (forall t, nth t (Signal data) 0%Z = 0%Z) /\
  momentum_buy_x data = [] /\
  momentum_sell_x data = [].
Proof.
  intros Hpos Hmono.
  assert (S0 : forall t, nth t (Signal data) 0%Z = 0%Z).
  { intros t. destruct (Nat.lt_ge_cases t (length data)) as [Ht|Ht];
      [| now apply Signal_past_end].
    rewrite Signal_at by assumption.
    destruct (Momentum_5D_tests data t Hpos Ht) as [Up Dn].
    destruct Hmono as [Hup|Hdown].
    - (* never falls: no loss, so the RSI is missing or 100 *)
      assert (L0 : avg_loss data t = 0).
      { apply wilder_zero. intros [|p] Hp; [reflexivity|].
        apply loss_zero_of_step, Hup. lia. }
      rewrite at_RSI, L0, Reqb_refl by assumption.
      destruct (flt (at_ (Momentum_5D data) t) (Fin 0)) eqn:D.
      + exfalso. destruct (Dn eq_refl) as [H5 Hlt].
        pose proof (five_steps_up data t H5) as F.
        assert (nth (t - 5) data 0 <= nth t data 0)
          by (apply F; intros; apply Hup; lia).
        lra.
      + destruct (t <? 13)%nat; simpl; rewrite ?andb_false_r; auto.
        rcmp. now rewrite !andb_false_r.
    - (* never rises: the momentum is never positive *)
      destruct (flt (Fin 0) (at_ (Momentum_5D data) t)) eqn:U.
      + exfalso. destruct (Up eq_refl) as [H5 Hlt].
        pose proof (five_steps_down data t H5) as F.
        assert (nth t data 0 <= nth (t - 5) data 0)
          by (apply F; intros; apply Hdown; lia).
        lra.
      + simpl.
        destruct (flt (at_ (Momentum_5D data) t) (Fin 0)) eqn:D; auto.
        destruct (Dn eq_refl) as [H5 Hlt]. simpl.
        assert (G0 : avg_gain data t = 0).
        { apply wilder_zero. intros [|p] Hp; [reflexivity|].
          apply gain_zero_of_step, Hdown. lia. }
        rewrite at_RSI, G0 by assumption.
        destruct (t <? 13)%nat; [reflexivity|].
        destruct (Reqb (avg_loss data t) 0) eqn:Z.
        * (* no loss either: the price has not moved, so no fall *)
          exfalso. apply Reqb_iff in Z.
          pose proof (wilder_zero_inv (1 / 14) (loss data) t ltac:(lra)
                        (loss_nonneg data) Z) as LZ.
          pose proof (five_steps_up data t H5) as F.
          assert (nth (t - 5) data 0 <= nth t data 0).
          { apply F. intros p Hp. apply loss_zero_step, LZ. lia. }
          lra.
        * apply Reqb_false_iff in Z. simpl.
          assert (V : 100 - 100 / (1 + 0 / avg_loss data t) = 0)
            by (field; lra).
          rewrite V. now rcmp. }
  assert (E : forall v, v <> 0%Z -> loc_index (eq_int (Signal data) v) = []).
  { intros v Hv. destruct (loc_index (eq_int (Signal data) v)) as [|t r] eqn:L;
      auto.
    exfalso. assert (I : In t (loc_index (eq_int (Signal data) v)))
      by (rewrite L; now left).
    apply in_loc_index in I. rewrite nth_eq_int in I by assumption.
    apply Z.eqb_eq in I. rewrite S0 in I. congruence. }
  split; [exact S0|]. split; apply E; discriminate.
Qed.

Lemma monotone_series_no_signal_witness :
  momentum_buy_x [100; 102; 103; 105; 106; 108] = [] /\
  momentum_sell_x [100; 102; 103; 105; 106; 108] = [].
Proof.
  apply (monotone_series_no_signal [100; 102; 103; 105; 106; 108]).
  - intros i Hi. simpl in Hi.
    do 6 (destruct i as [|i]; [simpl; lra|]). lia.
  - left. intros p Hp. simpl in Hp.
    do 5 (destruct p as [|p]; [simpl; lra|]). lia.
Defined.
